(** * Callback handling and session refresh of angular-auth-oidc-client

    A shallow embedding of
    - [CodeFlowCallbackHandlerService] (code-flow-callback-handler.service.ts),
    - [ImplicitFlowCallbackService] and [RefreshSessionService]
    and the properties their specification states about them.

    The services are RxJS pipelines.  Every observable they build settles
    at most once (an HTTP call, [of], [throwError], [timer], [take(1)],
    [forkJoin]), so one subscription is described by what it does to the
    collaborators, in order and with the virtual time in milliseconds at
    which it does it, and by how and when it settles. *)

From stdpp Require Import gmap strings list pretty sorting.
From Stdlib Require Import NArith.

Local Open Scope string_scope.
Local Open Scope list_scope.
Local Open Scope N_scope.

(** ** Data model *)

(** A custom parameter value: [string | number | boolean]. *)
Inductive ParamValue : Type :=
  | PString (s : string)
  | PNumber (n : Z)
  | PBoolean (b : bool).

(** [{ [key: string]: string | number | boolean }] *)
Abbreviation Params := (gmap string ParamValue).

(** A plain JS object with nullable string members, such as the parsed
    answer of the token endpoint. *)
Abbreviation JsObject := (gmap string (option string)).

(** [object.name], [undefined] and [null] alike giving [None]. *)
Definition member (name : string) (object : JsObject) : option string :=
  match object !! name with
  | Some value => value
  | None => None
  end.

(** The fields of [OpenIdConfiguration] the two files read. *)
Record OpenIdConfiguration : Type := {
  configId : string;
  authority : string;
  authWellknownEndpointUrl : option string;
  customParamsRefreshTokenRequest : option Params;
  customParamsCodeRequest : option Params;
  silentRenewTimeoutInSeconds : N;
  refreshTokenRetryInSeconds : N;
  triggerAuthorizationResultEvent : bool;
  postLoginRoute : string;
  unauthorizedRoute : string;
  useRefreshToken : bool;
}.

(** [CallbackContext]; a nullable member is an [option]. *)
Record CallbackContext : Type := {
  code : option string;
  refreshToken : option string;
  state : option string;
  sessionState : option string;
  authResult : option JsObject;
  isRenewProcess : bool;
  jwtKeys : option JsObject;
  validationResult : option JsObject;
  existingIdToken : option string;
}.

(** Qualified names of the members, for use where a local constant of the
    source has the name of a member. *)
Module Context.
Definition isRenewProcess := isRenewProcess.
End Context.

(** [callbackContext?.authResult?.name] *)
Definition authResultMember (name : string) (callbackContext : option CallbackContext)
    : option string :=
  match callbackContext with
  | Some context =>
      match authResult context with
      | Some result => member name result
      | None => None
      end
  | None => None
  end.

(** [LoginResponse] *)
Record LoginResponse : Type := {
  idToken : option string;
  accessToken : option string;
  userData : option JsObject;
  isAuthenticated : bool;
  loginConfigId : string;
}.

(** What [startRefreshSession] emits: [boolean | CallbackContext | null]. *)
Inductive RenewResult : Type :=
  | RenewNull
  | RenewBoolean (b : bool)
  | RenewContext (c : CallbackContext).

(** Values that travel on the error channel. *)
Inductive HttpErrorBody : Type :=
  | ProgressEvent (type : string)   (* transport level: 'error', 'timeout', 'abort' *)
  | ErrorBody (text : string).      (* the body of an answer with an error status *)

Inductive JsError : Type :=
  | HttpErrorResponse (status : N) (error : HttpErrorBody)
  | TimeoutError                      (* rxjs TimeoutError *)
  | TypeError (message : string)
  | ErrorMsg (message : string)       (* new Error('...') *)
  | ErrorOf (cause : JsError)         (* new Error(error) *)
  | Thrown (what : string).           (* anything else a collaborator raises *)

(** JS truthiness of a nullable string: [!v] holds for a missing value and
    for the empty string. *)
Definition truthy (v : option string) : bool :=
  match v with
  | Some EmptyString => false
  | Some _ => true
  | None => false
  end.

(** ** Calls on the collaborators *)

Inductive LogLevel : Type := Debug | Warning | Failure.

Inductive Action : Type :=
  | Log (level : LogLevel) (configId : string) (message : string)
  | GetAuthStateControl (configId : string)
  | StorageRead (key configId : string)
  | StorageWrite (key : string) (value : gmap string ParamValue) (configId : string)
  | HttpPost (url body configId : string) (headers : list (string * string))
  | SetSilentRenewRunning (configId : string)
  | ResetSilentRenewRunning (configId : string)
  | GetAuthWellKnownEndPoints (url configId : string)
  | RefreshSessionWithRefreshTokens (configId : string) (params : option Params)
  | RefreshSessionWithIframe (configId : string) (params : option Params)
  | SubscribeIFrameCompleted
  | ProcessImplicitFlowCallback (configId : string) (hash : option string)
  | NavigateByUrl (route : string)
  | StopPeriodicTokenCheck
  | Timer (due : N).

Definition logDebug (config : OpenIdConfiguration) (message : string) : Action :=
  Log Debug (configId config) message.
Definition logWarning (config : OpenIdConfiguration) (message : string) : Action :=
  Log Warning (configId config) message.
Definition logError (config : OpenIdConfiguration) (message : string) : Action :=
  Log Failure (configId config) message.

(** An action that reaches the network. *)
Definition isNetworkCall (a : Action) : bool :=
  match a with
  | HttpPost _ _ _ _ | GetAuthWellKnownEndPoints _ _
  | RefreshSessionWithRefreshTokens _ _ | RefreshSessionWithIframe _ _
  | ProcessImplicitFlowCallback _ _ => true
  | _ => false
  end.

(** An action that touches storage. *)
Definition isStorageAccess (a : Action) : bool :=
  match a with
  | GetAuthStateControl _ | StorageRead _ _ | StorageWrite _ _ _
  | SetSilentRenewRunning _ | ResetSilentRenewRunning _ => true
  | _ => false
  end.

(** ** The silent-renewal-in-progress flag *)

(** The flag store: the configurations whose renewal is marked running. *)
Abbreviation Flags := (gset string).

(** Modelled from the spec: [FlowsDataService.isSilentRenewRunning] is not
    among the sources; the flag is "a per-configuration boolean acting as
    a mutual-exclusion gate". *)
Definition isSilentRenewRunning (config : OpenIdConfiguration) (flags : Flags) : bool :=
  bool_decide (configId config ∈ flags).

(** Modelled from the spec: [FlowsDataService.setSilentRenewRunning] is not
    among the sources; it sets the flag of the configuration. *)
Definition setSilentRenewRunning (id : string) (flags : Flags) : Flags :=
  {[ id ]} ∪ flags.

(** Modelled from the spec: [FlowsDataService.resetSilentRenewRunning] is
    not among the sources; it clears the flag of the configuration. *)
Definition resetSilentRenewRunning (id : string) (flags : Flags) : Flags :=
  flags ∖ {[ id ]}.

(** The effect of one action on the flag store. *)
Definition applyAction (flags : Flags) (a : Action) : Flags :=
  match a with
  | SetSilentRenewRunning id => setSilentRenewRunning id flags
  | ResetSilentRenewRunning id => resetSilentRenewRunning id flags
  | _ => flags
  end.

(** ** Observables that settle once *)

Module Rx.

(** How a subscription ends: a value followed by completion, an error,
    or completion without a value. *)
Inductive Notification (A : Type) : Type :=
  | Next (a : A)
  | Error (e : JsError)
  | Complete.
Arguments Next {A} a.
Arguments Error {A} e.
Arguments Complete {A}.

(** When it ends, in milliseconds after the subscription, if ever. *)
Inductive Settle (A : Type) : Type :=
  | At (t : N) (n : Notification A)
  | Never.
Arguments At {A} t n.
Arguments Never {A}.

(** One subscription: the actions it performs, each with its time, in
    the order they happen, and how it settles. *)
Record Obs (A : Type) : Type := mkObs {
  actions : list (N * Action);
  settle : Settle A;
}.
Arguments mkObs {A} actions settle.
Arguments actions {A} o.
Arguments settle {A} o.

Definition shiftActions (t : N) (l : list (N * Action)) : list (N * Action) :=
  List.map (fun '(u, a) => (t + u, a)) l.

Definition shiftSettle {A} (t : N) (s : Settle A) : Settle A :=
  match s with
  | At u n => At (t + u) n
  | Never => Never
  end.

(** The actions that happen strictly before [t], at or before [t]. *)
Definition before (t : N) (l : list (N * Action)) : list (N * Action) :=
  List.filter (fun '(u, _) => u <? t) l.
Definition upto (t : N) (l : list (N * Action)) : list (N * Action) :=
  List.filter (fun '(u, _) => u <=? t) l.

(** [of(a)] (written [of_]), [throwError(() => e)], [timer(due)] *)
Definition of_ {A} (a : A) : Obs A := mkObs [] (At 0 (Next a)).
Definition throwError {A} (e : JsError) : Obs A := mkObs [] (At 0 (Error e)).
Definition timer (due : N) : Obs N := mkObs [(0, Timer due)] (At due (Next 0)).

(** Synchronous calls made while the observable is being built or while
    a callback runs, before the observable [o] it returns. *)
Definition doing {A} (l : list Action) (o : Obs A) : Obs A :=
  mkObs (List.map (fun a => (0, a)) l ++ actions o) (settle o).

(** [source.pipe(switchMap(f))]; [mergeMap] is the same on a source
    that emits once. *)
Definition switchMap {A B} (f : A -> Obs B) (source : Obs A) : Obs B :=
  match settle source with
  | At t (Next a) =>
      mkObs (actions source ++ shiftActions t (actions (f a)))
            (shiftSettle t (settle (f a)))
  | At t (Error e) => mkObs (actions source) (At t (Error e))
  | At t Complete => mkObs (actions source) (At t Complete)
  | Never => mkObs (actions source) Never
  end.

(** [source.pipe(map(f))] *)
Definition map {A B} (f : A -> B) (source : Obs A) : Obs B :=
  switchMap (fun a => of_ (f a)) source.

(** [source.pipe(tap(f))]: [f] only makes calls. *)
Definition tap {A} (f : A -> list Action) (source : Obs A) : Obs A :=
  switchMap (fun a => doing (f a) (of_ a)) source.

(** [source.pipe(catchError(h))] *)
Definition catchError {A} (h : JsError -> Obs A) (source : Obs A) : Obs A :=
  match settle source with
  | At t (Error e) =>
      mkObs (actions source ++ shiftActions t (actions (h e)))
            (shiftSettle t (settle (h e)))
  | _ => source
  end.

(** [source.pipe(take(1))] on a source that emits at most once. *)
Definition take1 {A} (source : Obs A) : Obs A := source.

(** [source.pipe(timeout(due))]: the source is subscribed first and the
    timer started next, so a source that settles at [due] at the latest
    is in time, and so are its calls up to [due].  When the source has
    not settled by then it is unsubscribed and a [TimeoutError] raised. *)
Definition timeout {A} (due : N) (source : Obs A) : Obs A :=
  let fired := mkObs (upto due (actions source)) (At due (Error TimeoutError)) in
  match settle source with
  | At t _ => if t <=? due then source else fired
  | Never => fired
  end.

(** The actions of two subscriptions that run side by side, by time;
    at equal times those of the first come first. *)
Definition earlier (x y : N * Action) : Prop := x.1 ≤ y.1.

#[local] Instance earlier_dec x y : Decision (earlier x y).
Proof. unfold earlier. apply _. Defined.

Definition interleave (l1 l2 : list (N * Action)) : list (N * Action) :=
  list_merge earlier l1 l2.

(** How a source that settles without a value ends a [forkJoin]. *)
Definition ends {A C} (n : Notification A) : Notification C :=
  match n with
  | Error e => Error e
  | _ => Complete
  end.

(** [forkJoin([a, b])]: [a] is subscribed first.  It emits the pair once
    both have emitted; an error of either, or a completion of either
    without a value, ends it at once and unsubscribes the other. *)
Definition forkJoin {A B} (a : Obs A) (b : Obs B) : Obs (A * B) :=
  let endedByA t (n : Notification (A * B)) :=
    mkObs (interleave (actions a) (before t (actions b))) (At t n) in
  let endedByB t (n : Notification (A * B)) :=
    mkObs (interleave (upto t (actions a)) (actions b)) (At t n) in
  let both := interleave (actions a) (actions b) in
  let waiting := mkObs both Never in
  match settle a, settle b with
  | At ta (Next va), At tb (Next vb) =>
      mkObs both (At (N.max ta tb) (Next (va, vb)))
  | At ta (Next _), At tb nb => endedByB tb (ends nb)
  | At ta na, At tb (Next _) => endedByA ta (ends na)
  | At ta na, At tb nb =>
      if ta <=? tb then endedByA ta (ends na) else endedByB tb (ends nb)
  | At ta (Next _), Never => waiting
  | At ta na, Never => endedByA ta (ends na)
  | Never, At tb (Next _) => waiting
  | Never, At tb nb => endedByB tb (ends nb)
  | Never, Never => waiting
  end.

(** [source.pipe(retryWhen(notifier))].  The notifier is called once,
    with the stream of errors, when the source fails for the first time.
    Both notifiers of the sources are of the form
    [errors.pipe(mergeMap((error, index) => ...))]: such a notifier is
    given by its callback ([inr]); a notifier whose call throws is given
    by what it throws ([inl]).  [source k] is the [k]-th subscription to
    the source.  A value emitted by the callback's observable
    resubscribes the source, an error of it is passed on. *)
Fixpoint retryLoop {A B} (handler : JsError -> N -> Obs B)
    (source : nat -> Obs A) (fuel : nat) (index : nat) : option (Obs A) :=
  match fuel with
  | O => None
  | S fuel' =>
      let attempt := source index in
      match settle attempt with
      | At t (Error e) =>
          let inner := handler e (N.of_nat index) in
          let sofar := actions attempt ++ shiftActions t (actions inner) in
          match settle inner with
          | At d (Next _) =>
              match retryLoop handler source fuel' (S index) with
              | Some rest =>
                  Some (mkObs (sofar ++ shiftActions (t + d) (actions rest))
                              (shiftSettle (t + d) (settle rest)))
              | None => None
              end
          | At d (Error e') => Some (mkObs sofar (At (t + d) (Error e')))
          | At d Complete => Some (mkObs sofar Never)
          | Never => Some (mkObs sofar Never)
          end
      | _ => Some attempt
      end
  end.

Definition retryWhen {A B} (notifier : JsError + (JsError -> N -> Obs B))
    (source : nat -> Obs A) (fuel : nat) : option (Obs A) :=
  match notifier with
  | inr handler => retryLoop handler source fuel 0%nat
  | inl thrown => Some (catchError (fun _ => throwError thrown) (source 0%nat))
  end.

(** The calls of a subscription in order, without their times. *)
Definition calls {A} (o : Obs A) : list Action := List.map snd (actions o).

(** The flag store once the subscription has made its calls. *)
Definition flagsAfter {A} (o : Obs A) (flags : Flags) : Flags :=
  foldl applyAction flags (calls o).

End Rx.

(** ** CodeFlowCallbackHandlerService *)

(** The cached well-known metadata. *)
Record AuthWellKnownEndpoints : Type := {
  tokenEndpoint : option string;
}.

(** What the collaborators of [codeFlowCodeRequest] hold and answer:
    the stored anti-forgery value, the cached metadata, and how the
    [k]-th subscription to [dataService.post(...)] settles. *)
Record CodeRequestWorld : Type := {
  authStateControl : option string;
  authWellKnownEndPoints : option AuthWellKnownEndpoints;
  post : nat -> Rx.Settle JsObject;
}.

(** Modelled from the spec: [TokenValidationService.validateStateFromHashCallback]
    is not among the sources; the stored anti-forgery value is compared
    with the state of the context "using exact equality". *)
Definition validateStateFromHashCallback
    (state localState : option string) (configId : string) : bool :=
  bool_decide (state = localState).

(** [error && error instanceof HttpErrorResponse &&
     error.error instanceof ProgressEvent && error.error.type === 'error'] *)
Definition isConnectivityLoss (error : JsError) : bool :=
  match error with
  | HttpErrorResponse _ (ProgressEvent type) => String.eqb type "error"
  | _ => false
  end.

Section CodeFlowCallbackHandlerService.

(** [UrlService]: the value of a query parameter, if the URL has it,
    and the body of the token request. *)
Variable getUrlParameter : string -> string -> option string.
Variable createBodyForCodeFlowCodeRequest :
  option string -> OpenIdConfiguration -> option Params -> string.

(* STEP 1 Code Flow *)
Definition codeFlowCallback (urlToCheck : string) (config : OpenIdConfiguration)
    : Rx.Obs CallbackContext :=
  let code := getUrlParameter urlToCheck "code" in
  let state := getUrlParameter urlToCheck "state" in
  let sessionState := getUrlParameter urlToCheck "session_state" in
  if negb (truthy state) then
    Rx.doing [logDebug config "no state in url"]
      (Rx.throwError (ErrorMsg "no state in url"))
  else if negb (truthy code) then
    Rx.doing [logDebug config "no code in url"]
      (Rx.throwError (ErrorMsg "no code in url"))
  else
    let initialCallbackContext := {|
      code := code;
      refreshToken := None;
      state := state;
      sessionState := sessionState;
      authResult := None;
      isRenewProcess := false;
      jwtKeys := None;
      validationResult := None;
      existingIdToken := None;
    |} in
    Rx.doing [logDebug config "running validation for callback"]
      (Rx.of_ initialCallbackContext).

Definition handleRefreshRetry (config : OpenIdConfiguration)
    (error : JsError) (index : N) : Rx.Obs N :=
  (* retry token refresh if there is no internet connection *)
  if isConnectivityLoss error then
    let errorMessage :=
      "OidcService code request " +:+ authority config +:+ " - no internet connection" in
    Rx.doing [logWarning config errorMessage]
      (Rx.timer (refreshTokenRetryInSeconds config * 1000))
  else Rx.throwError (ErrorOf error).

(** The context once the answer of the token endpoint is attached. *)
Definition withAuthResult (callbackContext : CallbackContext) (response : JsObject)
    : CallbackContext :=
  let authResult :=
    <["session_state" := sessionState callbackContext]>
      (<["state" := state callbackContext]> response) in
  {|
    code := code callbackContext;
    refreshToken := refreshToken callbackContext;
    state := state callbackContext;
    sessionState := sessionState callbackContext;
    authResult := Some authResult;
    isRenewProcess := isRenewProcess callbackContext;
    jwtKeys := jwtKeys callbackContext;
    validationResult := validationResult callbackContext;
    existingIdToken := existingIdToken callbackContext;
  |}.

(* STEP 2 Code Flow //  Code Flow Silent Renew starts here *)
Definition codeFlowCodeRequest (callbackContext : CallbackContext)
    (config : OpenIdConfiguration) (world : CodeRequestWorld) (fuel : nat)
    : option (Rx.Obs CallbackContext) :=
  let configId := configId config in
  let authStateControl := authStateControl world in
  let isStateCorrect :=
    validateStateFromHashCallback (state callbackContext) authStateControl configId in
  if negb isStateCorrect then
    Some (Rx.doing [GetAuthStateControl configId]
            (Rx.throwError (ErrorMsg "codeFlowCodeRequest incorrect state")))
  else
    let authWellknownEndpoints := authWellKnownEndPoints world in
    let tokenEndpoint := authWellknownEndpoints ≫= tokenEndpoint in
    let reads :=
      [GetAuthStateControl configId; StorageRead "authWellKnownEndPoints" configId] in
    if negb (truthy tokenEndpoint) then
      Some (Rx.doing reads (Rx.throwError (ErrorMsg "Token Endpoint not defined")))
    else
      let headers := [("Content-Type", "application/x-www-form-urlencoded")] in
      let bodyForCodeFlow :=
        createBodyForCodeFlowCodeRequest
          (code callbackContext) config (customParamsCodeRequest config) in
      let request (k : nat) : Rx.Obs JsObject :=
        Rx.mkObs
          [(0, HttpPost (default "" tokenEndpoint) bodyForCodeFlow configId headers)]
          (post world k) in
      let exchange (k : nat) :=
        Rx.switchMap
          (fun response => Rx.of_ (withAuthResult callbackContext response))
          (request k) in
      let surfaced (error : JsError) : Rx.Obs CallbackContext :=
        let errorMessage := "OidcService code request " +:+ authority config in
        Rx.doing [logError config errorMessage]
          (Rx.throwError (ErrorMsg errorMessage)) in
      Rx.doing reads
        <$> (Rx.catchError surfaced
               <$> Rx.retryWhen (inr (handleRefreshRetry config)) exchange fuel).

End CodeFlowCallbackHandlerService.

(** ** ImplicitFlowCallbackService *)

(** What [authenticatedImplicitFlowCallback] finds: the flag store when it
    is called, and the subscription to
    [flowsService.processImplicitFlowCallback(...)] with the calls that
    collaborator makes itself. *)
Record ImplicitWorld : Type := {
  flagsAtCall : Flags;
  processImplicitFlowCallback :
    OpenIdConfiguration -> list OpenIdConfiguration -> option string ->
    Rx.Obs CallbackContext;
}.

Definition authenticatedImplicitFlowCallback (config : OpenIdConfiguration)
    (allConfigs : list OpenIdConfiguration) (hash : option string)
    (world : ImplicitWorld) : Rx.Obs CallbackContext :=
  let isRenewProcess := isSilentRenewRunning config (flagsAtCall world) in
  let triggerAuthorizationResultEvent := triggerAuthorizationResultEvent config in
  let postLoginRoute := postLoginRoute config in
  let unauthorizedRoute := unauthorizedRoute config in
  let configId := configId config in
  Rx.catchError
    (fun error =>
       Rx.doing
         ([ResetSilentRenewRunning configId; StopPeriodicTokenCheck] ++
          (if negb triggerAuthorizationResultEvent && negb isRenewProcess
           then [NavigateByUrl unauthorizedRoute] else []))
         (Rx.throwError (ErrorOf error)))
    (Rx.tap
       (fun callbackContext =>
          if negb triggerAuthorizationResultEvent
             && negb (Context.isRenewProcess callbackContext)
          then [NavigateByUrl postLoginRoute] else [])
       (Rx.doing [ProcessImplicitFlowCallback configId hash]
          (processImplicitFlowCallback world config allConfigs hash))).

(** ** RefreshSessionService *)

Definition MAX_RETRY_ATTEMPTS : N := 3.

(** [AuthStateService] and [UserService] when the result is built. *)
Record AuthStores : Type := {
  areAuthStorageTokensValid : bool;
  getIdToken : option string;
  getAccessToken : option string;
  getUserDataFromStore : option JsObject;
}.

(** How the collaborators answer during one subscription of the renewal:
    the metadata fetch after its subscription, the two renewals after
    their dispatch, and the first value of
    [refreshSessionWithIFrameCompleted$] after its subscription.  Only
    the calls of [RefreshSessionService] itself are recorded, not what
    the collaborators do in turn. *)
Record RenewAttempt : Type := {
  getAuthWellKnownEndPoints : Rx.Settle AuthWellKnownEndpoints;
  refreshSessionWithRefreshTokens : Rx.Settle RenewResult;
  refreshSessionWithIframe : Rx.Settle RenewResult;
  refreshSessionWithIFrameCompleted : Rx.Settle (option CallbackContext);
}.

Record RefreshWorld : Type := {
  silentRenewRunning : Flags;        (* the flag store at the call *)
  attempt : nat -> RenewAttempt;     (* the [k]-th subscription *)
  stores : AuthStores;
}.

(** A method that makes calls and returns a cold observable, subscribed
    later and perhaps several times. *)
Record Call (A : Type) : Type := mkCall {
  eager : list Action;
  cold : RenewAttempt -> Rx.Obs A;
}.
Arguments mkCall {A} eager cold.
Arguments eager {A} c.
Arguments cold {A} c.

(** [error instanceof TimeoutError] *)
Definition isTimeoutError (error : JsError) : bool :=
  match error with
  | TimeoutError => true
  | _ => false
  end.

(** [{ ...a, ...b }]: spreading [undefined] adds nothing, and a key of [b]
    overrides the same key of [a]. *)
Definition spread (a b : option Params) : Params :=
  default ∅ b ∪ default ∅ a.

Section RefreshSessionService.

(** [FlowHelper] *)
Variable isCurrentFlowCodeFlowWithRefreshTokens : OpenIdConfiguration -> bool.

Definition persistCustomParams (extraCustomParams : option Params)
    (config : OpenIdConfiguration) : list Action :=
  let configId := configId config in
  match extraCustomParams with
  | Some params =>
      if useRefreshToken config
      then [StorageWrite "storageCustomParamsRefresh" params configId]
      else [StorageWrite "storageCustomParamsAuthRequest" params configId]
  | None => []
  end.

Definition startRefreshSession (config : OpenIdConfiguration)
    (extraCustomParams : option Params) (flags : Flags) : Call RenewResult :=
  let configId := configId config in
  let authWellknownEndpointUrl := authWellknownEndpointUrl config in
  let isSilentRenewRunning := isSilentRenewRunning config flags in
  let checking :=
    logDebug config
      ("Checking: silentRenewRunning: " +:+
       (if isSilentRenewRunning then "true" else "false")) in
  let shouldBeExecuted := negb isSilentRenewRunning in
  if negb shouldBeExecuted then
    mkCall [checking] (fun _ => Rx.of_ RenewNull)
  else if negb (truthy authWellknownEndpointUrl) then
    mkCall [checking; logError config "no authWellKnownEndpoint given!"]
      (fun _ => Rx.of_ RenewNull)
  else
    mkCall [checking] (fun collaborators =>
      Rx.switchMap
        (fun _ =>
           Rx.doing [SetSilentRenewRunning configId]
             (if isCurrentFlowCodeFlowWithRefreshTokens config then
                (* Refresh Session using Refresh tokens *)
                Rx.mkObs [(0, RefreshSessionWithRefreshTokens configId extraCustomParams)]
                  (refreshSessionWithRefreshTokens collaborators)
              else
                Rx.mkObs [(0, RefreshSessionWithIframe configId extraCustomParams)]
                  (refreshSessionWithIframe collaborators)))
        (Rx.mkObs
           [(0, GetAuthWellKnownEndPoints (default "" authWellknownEndpointUrl) configId)]
           (getAuthWellKnownEndPoints collaborators))).

(** [config] is [None] when the caller passes no second argument: the
    destructuring [const { configId } = config] then throws. *)
Definition timeoutRetryStrategy (config : option OpenIdConfiguration)
    : JsError + (JsError -> N -> Rx.Obs N) :=
  match config with
  | None =>
      inl (TypeError "Cannot destructure property 'configId' of 'config' as it is undefined.")
  | Some config =>
      let configId := configId config in
      inr (fun error index =>
        let scalingDuration := 1000 in
        let currentAttempt := index + 1 in
        if negb (isTimeoutError error) || (MAX_RETRY_ATTEMPTS <? currentAttempt) then
          Rx.throwError (ErrorOf error)
        else
          Rx.doing
            [logDebug config
               ("forceRefreshSession timeout. Attempt #" +:+ pretty currentAttempt);
             ResetSilentRenewRunning configId]
            (Rx.timer (currentAttempt * scalingDuration)))
  end.

(** One subscription of
    [forkJoin([startRefreshSession(...), completed$.pipe(take(1))]).pipe(timeout(timeOutTime))]. *)
Definition renewalUnderTimeout (start : Call RenewResult) (timeOutTime : N)
    (collaborators : RenewAttempt) : Rx.Obs (RenewResult * option CallbackContext) :=
  Rx.timeout timeOutTime
    (Rx.forkJoin
       (cold start collaborators)
       (Rx.take1
          (Rx.mkObs [(0, SubscribeIFrameCompleted)]
             (refreshSessionWithIFrameCompleted collaborators)))).

Definition forceRefreshSession (config : OpenIdConfiguration)
    (extraCustomParams : option Params) (world : RefreshWorld) (fuel : nat)
    : option (Rx.Obs (option LoginResponse)) :=
  let customParamsRefreshTokenRequest := customParamsRefreshTokenRequest config in
  let configId := configId config in
  let mergedParams := spread customParamsRefreshTokenRequest extraCustomParams in
  if isCurrentFlowCodeFlowWithRefreshTokens config then
    let start := startRefreshSession config (Some mergedParams) (silentRenewRunning world) in
    Some
      (Rx.doing (eager start)
         (Rx.map
            (fun _ =>
               let isAuthenticated := areAuthStorageTokensValid (stores world) in
               if isAuthenticated then
                 Some {|
                   idToken := getIdToken (stores world);
                   accessToken := getAccessToken (stores world);
                   userData := getUserDataFromStore (stores world);
                   isAuthenticated := isAuthenticated;
                   loginConfigId := configId;
                 |}
               else None)
            (cold start (attempt world 0%nat))))
  else
    let silentRenewTimeoutInSeconds := silentRenewTimeoutInSeconds config in
    let timeOutTime := silentRenewTimeoutInSeconds * 1000 in
    let start := startRefreshSession config extraCustomParams (silentRenewRunning world) in
    match
      Rx.retryWhen
        (* [this.timeoutRetryStrategy.bind(this)] fixes the receiver only,
           and [retryWhen] calls its notifier with the stream of errors
           alone: the parameter [config] is undefined. *)
        (timeoutRetryStrategy None)
        (fun k => renewalUnderTimeout start timeOutTime (attempt world k))
        fuel
    with
    | Some renewed =>
        Some
          (Rx.doing (eager start)
             (Rx.map
                (fun '((_, callbackContext) : RenewResult * option CallbackContext) =>
                   let isAuthenticated := areAuthStorageTokensValid (stores world) in
                   if isAuthenticated then
                     Some {|
                       idToken := authResultMember "id_token" callbackContext;
                       accessToken := authResultMember "access_token" callbackContext;
                       userData := getUserDataFromStore (stores world);
                       isAuthenticated := isAuthenticated;
                       loginConfigId := configId;
                     |}
                   else None)
                renewed))
    | None => None
    end.

Definition userForceRefreshSession (config : OpenIdConfiguration)
    (extraCustomParams : option Params) (world : RefreshWorld) (fuel : nat)
    : option (Rx.Obs (option LoginResponse)) :=
  Rx.doing (persistCustomParams extraCustomParams config)
    <$> forceRefreshSession config extraCustomParams world fuel.

End RefreshSessionService.


(** ** Vocabulary of the properties *)

(** One subscription to the POST of [codeFlowCodeRequest] with its
    [switchMap], the source of its [retryWhen]. *)
Definition exchange (callbackContext : CallbackContext) (request : Action)
    (post : nat -> Rx.Settle JsObject) (k : nat) : Rx.Obs CallbackContext :=
  Rx.switchMap
    (fun response => Rx.of_ (withAuthResult callbackContext response))
    (Rx.mkObs [(0, request)] (post k)).

(** When a subscription settles; 0 for one that never does. *)
Definition settledAt {A} (s : Rx.Settle A) : N :=
  match s with
  | Rx.At t _ => t
  | Rx.Never => 0
  end.

(** The POST failed for want of connectivity. *)
Definition connectivityLost (s : Rx.Settle JsObject) : Prop :=
  exists t e, s = Rx.At t (Rx.Error e) /\ isConnectivityLoss e = true.

(** The time from the [i]-th POST to the [(i + n)]-th, when each of the
    [n] POSTs in between is issued [delay] after the one before failed. *)
Fixpoint waited (post : nat -> Rx.Settle JsObject) (delay : N) (i n : nat) : N :=
  match n with
  | O => 0
  | S n' => settledAt (post i) + delay + waited post delay (S i) n'
  end.

(** What these [n] failed POSTs do: the request, and when it has failed
    the warning and the timer. *)
Fixpoint retried (post : nat -> Rx.Settle JsObject) (request warning : Action)
    (delay : N) (i n : nat) : list (N * Action) :=
  match n with
  | O => []
  | S n' =>
      [(0, request); (settledAt (post i), warning); (settledAt (post i), Timer delay)]
      ++ Rx.shiftActions (settledAt (post i) + delay)
           (retried post request warning delay (S i) n')
  end.

(** The result [forceRefreshSession] builds on the iframe path from the
    context the completed signal carried. *)
Definition loginResponseOf (config : OpenIdConfiguration) (stores : AuthStores)
    (callbackContext : option CallbackContext) : option LoginResponse :=
  let isAuthenticated := areAuthStorageTokensValid stores in
  if isAuthenticated then
    Some {|
      idToken := authResultMember "id_token" callbackContext;
      accessToken := authResultMember "access_token" callbackContext;
      userData := getUserDataFromStore stores;
      isAuthenticated := isAuthenticated;
      loginConfigId := configId config;
    |}
  else None.

(** The result on the refresh-token path. *)
Definition storedLoginResponse (config : OpenIdConfiguration) (stores : AuthStores)
    : option LoginResponse :=
  let isAuthenticated := areAuthStorageTokensValid stores in
  if isAuthenticated then
    Some {|
      idToken := getIdToken stores;
      accessToken := getAccessToken stores;
      userData := getUserDataFromStore stores;
      isAuthenticated := isAuthenticated;
      loginConfigId := configId config;
    |}
  else None.

(** The timers among some calls. *)
Definition timersOf (l : list Action) : list N :=
  omap (fun a => match a with Timer due => Some due | _ => None end) l.

(** The flag writes among some calls. *)
Definition isFlagWrite (a : Action) : bool :=
  match a with
  | SetSilentRenewRunning _ | ResetSilentRenewRunning _ => true
  | _ => false
  end.

(** The completed signal is a subject: it emits or stays silent, it
    neither fails nor completes. *)
Definition signalOnly {A} (s : Rx.Settle A) : Prop :=
  s = Rx.Never \/ exists t a, s = Rx.At t (Rx.Next a).

(** ** Sample inputs *)

(** An implicit-flow configuration with a silent-renew timeout of 5 s. *)
Definition sampleConfig : OpenIdConfiguration := {|
  configId := "a";
  authority := "https://idp";
  authWellknownEndpointUrl := Some "https://idp/.well-known/openid-configuration";
  customParamsRefreshTokenRequest := Some {[ "scope" := PString "offline" ]};
  customParamsCodeRequest := None;
  silentRenewTimeoutInSeconds := 5;
  refreshTokenRetryInSeconds := 3;
  triggerAuthorizationResultEvent := false;
  postLoginRoute := "/home";
  unauthorizedRoute := "/unauthorized";
  useRefreshToken := false;
|}.

(** The same provider used through the code flow with refresh tokens. *)
Definition sampleRefreshConfig : OpenIdConfiguration := {|
  configId := "a";
  authority := "https://idp";
  authWellknownEndpointUrl := Some "https://idp/.well-known/openid-configuration";
  customParamsRefreshTokenRequest := Some {[ "scope" := PString "offline" ]};
  customParamsCodeRequest := None;
  silentRenewTimeoutInSeconds := 5;
  refreshTokenRetryInSeconds := 3;
  triggerAuthorizationResultEvent := false;
  postLoginRoute := "/home";
  unauthorizedRoute := "/unauthorized";
  useRefreshToken := true;
|}.

(** A flow helper for the samples. *)
Definition sampleFlowHelper (config : OpenIdConfiguration) : bool :=
  useRefreshToken config.

Definition sampleMetadata : AuthWellKnownEndpoints :=
  {| tokenEndpoint := Some "https://idp/token" |}.

Definition sampleStores : AuthStores := {|
  areAuthStorageTokensValid := true;
  getIdToken := Some "stored-id-token";
  getAccessToken := Some "stored-access-token";
  getUserDataFromStore := Some {[ "sub" := Some "alice" ]};
|}.

Definition sampleContext : CallbackContext := {|
  code := Some "c0de";
  refreshToken := None;
  state := Some "st4te";
  sessionState := Some "s3ssion";
  authResult :=
    Some {[ "id_token" := Some "new-id-token"; "access_token" := Some "new-access-token" ]};
  isRenewProcess := true;
  jwtKeys := None;
  validationResult := None;
  existingIdToken := None;
|}.

(** Metadata after 10 ms; then the iframe renewal never answers and no
    completed signal arrives, on every subscription. *)
Definition stalledWorld : RefreshWorld := {|
  silentRenewRunning := ∅;
  attempt := fun _ => {|
    getAuthWellKnownEndPoints := Rx.At 10 (Rx.Next sampleMetadata);
    refreshSessionWithRefreshTokens := Rx.Never;
    refreshSessionWithIframe := Rx.Never;
    refreshSessionWithIFrameCompleted := Rx.Never;
  |};
  stores := sampleStores;
|}.

(** Metadata after 10 ms; the renewal collaborator fails 20 ms later. *)
Definition failingWorld : RefreshWorld := {|
  silentRenewRunning := ∅;
  attempt := fun _ => {|
    getAuthWellKnownEndPoints := Rx.At 10 (Rx.Next sampleMetadata);
    refreshSessionWithRefreshTokens := Rx.At 20 (Rx.Error (Thrown "refresh failed"));
    refreshSessionWithIframe := Rx.At 20 (Rx.Error (Thrown "iframe failed"));
    refreshSessionWithIFrameCompleted := Rx.Never;
  |};
  stores := sampleStores;
|}.

(** Metadata after 10 ms; the renewal answers 20 ms later and the
    completed signal arrives 300 ms after the subscription. *)
Definition renewingWorld : RefreshWorld := {|
  silentRenewRunning := ∅;
  attempt := fun _ => {|
    getAuthWellKnownEndPoints := Rx.At 10 (Rx.Next sampleMetadata);
    refreshSessionWithRefreshTokens := Rx.At 20 (Rx.Next (RenewContext sampleContext));
    refreshSessionWithIframe := Rx.At 20 (Rx.Next (RenewBoolean true));
    refreshSessionWithIFrameCompleted := Rx.At 300 (Rx.Next (Some sampleContext));
  |};
  stores := sampleStores;
|}.

(** Extra parameters of a caller, one of them also configured. *)
Definition sampleExtraParams : option Params :=
  Some {[ "scope" := PString "caller"; "prompt" := PString "none" ]}.

(** The parameters of one return URL. *)
Definition sampleReturnUrl : string :=
  "https://app/callback?code=c0de&state=st4te&session_state=s3ssion".

Definition sampleUrlParameter (url name : string) : option string :=
  if negb (String.eqb url sampleReturnUrl) then None
  else if String.eqb name "code" then Some "c0de"
  else if String.eqb name "state" then Some "st4te"
  else if String.eqb name "session_state" then Some "s3ssion"
  else None.

Definition sampleBody (code : option string) (config : OpenIdConfiguration)
    (customParams : option Params) : string :=
  "grant_type=authorization_code&code=" +:+ default "" code.

Definition sampleAnswer : JsObject :=
  {[ "id_token" := Some "new-id-token"; "access_token" := Some "new-access-token" ]}.

(** The stored state matches; the first POST finds no connectivity after
    50 ms, the second is answered after 80 ms. *)
Definition sampleCodeWorld : CodeRequestWorld := {|
  authStateControl := Some "st4te";
  authWellKnownEndPoints := Some sampleMetadata;
  post := fun k =>
    match k with
    | O => Rx.At 50 (Rx.Error (HttpErrorResponse 0 (ProgressEvent "error")))
    | S _ => Rx.At 80 (Rx.Next sampleAnswer)
    end;
|}.

(** The stored state is another one. *)
Definition forgedCodeWorld : CodeRequestWorld := {|
  authStateControl := Some "0ther";
  authWellKnownEndPoints := Some sampleMetadata;
  post := fun _ => Rx.At 80 (Rx.Next sampleAnswer);
|}.

(** The delegate of the implicit flow fails after 40 ms. *)
Definition sampleImplicitWorld : ImplicitWorld := {|
  flagsAtCall := ∅;
  processImplicitFlowCallback := fun _ _ _ =>
    Rx.mkObs [] (Rx.At 40 (Rx.Error (Thrown "invalid token")));
|}.

(** The same configuration delivering results as events. *)
Definition sampleEventConfig : OpenIdConfiguration := {|
  configId := "a";
  authority := "https://idp";
  authWellknownEndpointUrl := Some "https://idp/.well-known/openid-configuration";
  customParamsRefreshTokenRequest := None;
  customParamsCodeRequest := None;
  silentRenewTimeoutInSeconds := 5;
  refreshTokenRetryInSeconds := 3;
  triggerAuthorizationResultEvent := true;
  postLoginRoute := "/home";
  unauthorizedRoute := "/unauthorized";
  useRefreshToken := false;
|}.

(** The context of a login that is no renewal. *)
Definition sampleLoginContext : CallbackContext := {|
  code := None;
  refreshToken := None;
  state := Some "st4te";
  sessionState := None;
  authResult := Some sampleAnswer;
  isRenewProcess := false;
  jwtKeys := None;
  validationResult := None;
  existingIdToken := None;
|}.

(** The delegate of the implicit flow emits that context after 40 ms. *)
Definition succeedingImplicitWorld : ImplicitWorld := {|
  flagsAtCall := ∅;
  processImplicitFlowCallback := fun _ _ _ =>
    Rx.mkObs [] (Rx.At 40 (Rx.Next sampleLoginContext));
|}.

(** The first POST finds no connectivity, the second is never answered. *)
Definition hangingCodeWorld : CodeRequestWorld := {|
  authStateControl := Some "st4te";
  authWellKnownEndPoints := Some sampleMetadata;
  post := fun k =>
    match k with
    | O => Rx.At 50 (Rx.Error (HttpErrorResponse 0 (ProgressEvent "error")))
    | S _ => Rx.Never
    end;
|}.

(** The token endpoint answers 400 after 120 ms. *)
Definition rejectingCodeWorld : CodeRequestWorld := {|
  authStateControl := Some "st4te";
  authWellKnownEndPoints := Some sampleMetadata;
  post := fun _ =>
    Rx.At 120 (Rx.Error (HttpErrorResponse 400 (ErrorBody "invalid_grant")));
|}.

(** A renewal of configuration "b" is running; the collaborators answer
    as in [renewingWorld]. *)
Definition busyWorld : RefreshWorld := {|
  silentRenewRunning := {[ "b" ]};
  attempt := attempt renewingWorld;
  stores := sampleStores;
|}.

(** A renewal of configuration "a" itself is running. *)
Definition runningWorld : RefreshWorld := {|
  silentRenewRunning := {[ "a" ]};
  attempt := attempt renewingWorld;
  stores := sampleStores;
|}.

(** The completed signal arrives after 300 ms and carries [null]. *)
Definition emptySignalWorld : RefreshWorld := {|
  silentRenewRunning := ∅;
  attempt := fun _ => {|
    getAuthWellKnownEndPoints := Rx.At 10 (Rx.Next sampleMetadata);
    refreshSessionWithRefreshTokens := Rx.Never;
    refreshSessionWithIframe := Rx.At 20 (Rx.Next (RenewBoolean true));
    refreshSessionWithIFrameCompleted := Rx.At 300 (Rx.Next None);
  |};
  stores := sampleStores;
|}.

(** The guarantee that the flag is clear whenever [forceRefreshSession]
    surfaces an error. *)
Definition flagClearWhenErrorSurfaces
    (isCurrentFlowCodeFlowWithRefreshTokens : OpenIdConfiguration -> bool)
    (config : OpenIdConfiguration) (extraCustomParams : option Params)
    (world : RefreshWorld) : Prop :=
  forall fuel o t e,
    forceRefreshSession isCurrentFlowCodeFlowWithRefreshTokens
      config extraCustomParams world fuel = Some o ->
    Rx.settle o = Rx.At t (Rx.Error e) ->
    isSilentRenewRunning config (Rx.flagsAfter o (silentRenewRunning world)) = false.


(** * Properties *)

(** ** Generic facts about the combinators *)

Module RxFacts.
Import Rx.

Lemma calls_doing {A} (l : list Action) (o : Obs A) :
  calls (doing l o) = l ++ calls o.
Proof.
  unfold calls, doing; simpl.
  rewrite List.map_app, List.map_map; simpl.
  by rewrite List.map_id.
Qed.

Lemma settle_doing {A} (l : list Action) (o : Obs A) :
  settle (doing l o) = settle o.
Proof. reflexivity. Qed.

Lemma calls_shift (t : N) (l : list (N * Action)) :
  List.map snd (shiftActions t l) = List.map snd l.
Proof.
  unfold shiftActions. rewrite List.map_map.
  apply List.map_ext. by intros [u a].
Qed.

Lemma shiftSettle_0 {A} (s : Settle A) : shiftSettle 0 s = s.
Proof. by destruct s. Qed.

Lemma shiftSettle_shiftSettle {A} (t u : N) (s : Settle A) :
  shiftSettle t (shiftSettle u s) = shiftSettle (t + u) s.
Proof. destruct s; simpl; [by rewrite N.add_assoc | done]. Qed.

Lemma shiftActions_app (t : N) (l1 l2 : list (N * Action)) :
  shiftActions t (l1 ++ l2) = shiftActions t l1 ++ shiftActions t l2.
Proof. apply List.map_app. Qed.

Lemma shiftActions_shiftActions (t u : N) (l : list (N * Action)) :
  shiftActions t (shiftActions u l) = shiftActions (t + u) l.
Proof.
  unfold shiftActions. rewrite List.map_map.
  apply List.map_ext. intros [v a]. by rewrite N.add_assoc.
Qed.

Lemma shiftActions_0 (l : list (N * Action)) : shiftActions 0 l = l.
Proof.
  unfold shiftActions. rewrite <- (List.map_id l) at 2.
  apply List.map_ext. by intros [v a].
Qed.

Lemma actions_map {A B} (f : A -> B) (o : Obs A) :
  actions (map f o) = actions o.
Proof.
  unfold map, switchMap.
  destruct (settle o) as [t [a|e|]|]; simpl; by rewrite ?app_nil_r.
Qed.

Lemma calls_map {A B} (f : A -> B) (o : Obs A) :
  calls (map f o) = calls o.
Proof. unfold calls. by rewrite actions_map. Qed.

Lemma settle_map {A B} (f : A -> B) (o : Obs A) :
  settle (map f o) =
  match settle o with
  | At t (Next a) => At t (Next (f a))
  | At t (Error e) => At t (Error e)
  | At t Complete => At t Complete
  | Never => Never
  end.
Proof.
  unfold map, switchMap.
  destruct (settle o) as [t [a|e|]|]; simpl; by rewrite ?N.add_0_r.
Qed.

Lemma elem_of_interleave (x : N * Action) (l1 l2 : list (N * Action)) :
  x ∈ interleave l1 l2 <-> x ∈ l1 \/ x ∈ l2.
Proof.
  unfold interleave. rewrite (merge_Permutation earlier l1 l2).
  apply elem_of_app.
Qed.

Lemma elem_of_before (x : N * Action) (t : N) (l : list (N * Action)) :
  x ∈ before t l -> x ∈ l.
Proof.
  unfold before. rewrite !list_elem_of_In, List.filter_In. tauto.
Qed.

Lemma elem_of_upto (x : N * Action) (t : N) (l : list (N * Action)) :
  x ∈ upto t l -> x ∈ l.
Proof.
  unfold upto. rewrite !list_elem_of_In, List.filter_In. tauto.
Qed.

Lemma elem_of_forkJoin {A B} (a : Obs A) (b : Obs B) (x : N * Action) :
  x ∈ actions (forkJoin a b) -> x ∈ actions a \/ x ∈ actions b.
Proof.
  unfold forkJoin.
  destruct (settle a) as [ta [va|ea|]|], (settle b) as [tb [vb|eb|]|];
    simpl; try destruct (ta <=? tb); simpl;
    rewrite elem_of_interleave;
    intros [H|H]; eauto using elem_of_before, elem_of_upto.
Qed.

Lemma elem_of_timeout {A} (due : N) (o : Obs A) (x : N * Action) :
  x ∈ actions (timeout due o) -> x ∈ actions o.
Proof.
  unfold timeout.
  destruct (settle o) as [t n|]; [destruct (t <=? due)|]; simpl;
    eauto using elem_of_upto.
Qed.

Lemma forkJoin_keeps_first {A B} (a : Obs A) (b : Obs B) (x : N * Action) :
  (settle b = Never \/ exists tb vb, settle b = At tb (Next vb)) ->
  x ∈ actions a -> x ∈ actions (forkJoin a b).
Proof.
  intros Hb Hx. unfold forkJoin.
  destruct Hb as [->|(tb & vb & ->)];
    destruct (settle a) as [ta [va|ea|]|]; simpl;
    rewrite elem_of_interleave; by left.
Qed.

Lemma timeout_keeps_early {A} (due : N) (o : Obs A) (t : N) (a : Action) :
  t < due -> (t, a) ∈ actions o -> (t, a) ∈ actions (timeout due o).
Proof.
  intros Ht Hin. unfold timeout.
  assert (Hkept : (t, a) ∈ upto due (actions o)).
  { unfold upto. rewrite list_elem_of_In, List.filter_In, <- list_elem_of_In.
    split; [done|]. apply N.leb_le. lia. }
  destruct (settle o) as [u n|]; [destruct (u <=? due)|]; done.
Qed.

Lemma actions_catchError_thrown {A} (thrown : JsError) (o : Obs A) :
  actions (catchError (fun _ => throwError thrown) o) = actions o.
Proof.
  unfold catchError.
  destruct (settle o) as [t [a|e|]|]; simpl; by rewrite ?app_nil_r.
Qed.

Lemma settle_catchError_thrown {A} (thrown : JsError) (o : Obs A) :
  settle (catchError (fun _ => throwError thrown) o) =
  match settle o with
  | At t (Error _) => At t (Error thrown)
  | s => s
  end.
Proof.
  unfold catchError.
  destruct (settle o) as [t [a|e|]|] eqn:Ho; simpl; rewrite ?N.add_0_r; done.
Qed.

Lemma elem_of_calls {A} (o : Obs A) (a : Action) :
  a ∈ calls o <-> exists t, (t, a) ∈ actions o.
Proof.
  unfold calls. rewrite list_elem_of_fmap. split.
  - intros [[t a'] [-> H]]. by exists t.
  - intros [t H]. by exists (t, a).
Qed.

End RxFacts.

(** ** The code-flow callback *)

Section CodeFlowCallback.

Variable getUrlParameter : string -> string -> option string.

(** C5.  [codeFlowCallback] fails with 'no state in url' when the return
    URL has no [state] (none, or an empty one: the test is [!state]),
    whether or not it has a [code]; fails with 'no code in url' when it
    has a [state] and no [code]; and for a URL with both emits, at once, a
    context with exactly the extracted [code], [state] and
    [session_state], [isRenewProcess = false] and every other member
    null.  It only logs: no call reaches the network or the storage. *)
Theorem codeFlowCallback_outcome (urlToCheck : string) (config : OpenIdConfiguration) :
  let code := getUrlParameter urlToCheck "code" in
  let state := getUrlParameter urlToCheck "state" in
  let sessionState := getUrlParameter urlToCheck "session_state" in
  let result := codeFlowCallback getUrlParameter urlToCheck config in
  (truthy state = false ->
     Rx.settle result = Rx.At 0 (Rx.Error (ErrorMsg "no state in url"))) /\
  (truthy state = true -> truthy code = false ->
     Rx.settle result = Rx.At 0 (Rx.Error (ErrorMsg "no code in url"))) /\
  (truthy state = true -> truthy code = true ->
     Rx.settle result =
       Rx.At 0 (Rx.Next {|
         code := code;
         refreshToken := None;
         state := state;
         sessionState := sessionState;
         authResult := None;
         isRenewProcess := false;
         jwtKeys := None;
         validationResult := None;
         existingIdToken := None;
       |})) /\
  Forall (fun a => isNetworkCall a = false /\ isStorageAccess a = false)
    (Rx.calls result).
Proof.
  intros code state sessionState result. subst result.
  unfold codeFlowCallback. fold code state sessionState.
  destruct (truthy state) eqn:Hstate; simpl.
  - destruct (truthy code) eqn:Hcode; simpl.
    + repeat split; try done. repeat constructor.
    + repeat split; try done. repeat constructor.
  - repeat split; try done. repeat constructor.
Qed.

End CodeFlowCallback.

(** ** The code-for-token exchange *)

Section CodeFlowCodeRequest.

Variable createBodyForCodeFlowCodeRequest :
  option string -> OpenIdConfiguration -> option Params -> string.

Lemma calls_retried post request warning delay i n :
  List.map snd (retried post request warning delay i n) =
  mjoin (replicate n [request; warning; Timer delay]).
Proof.
  revert i. induction n as [|n IH]; intros i; [done|].
  simpl. rewrite RxFacts.calls_shift, IH. done.
Qed.

(** After [n] POSTs lost to connectivity the retry is where it began, [n]
    subscriptions and [waited] milliseconds later. *)
Lemma retryLoop_connectivity (callbackContext : CallbackContext)
    (config : OpenIdConfiguration) (request : Action)
    (post : nat -> Rx.Settle JsObject) (n i fuel : nat) :
  let delay := refreshTokenRetryInSeconds config * 1000 in
  let warning :=
    logWarning config
      ("OidcService code request " +:+ authority config +:+ " - no internet connection") in
  (forall k, (k < n)%nat -> connectivityLost (post (i + k)%nat)) ->
  Rx.retryLoop (handleRefreshRetry config) (exchange callbackContext request post)
    (n + fuel) i =
  (fun rest =>
     Rx.mkObs
       (retried post request warning delay i n
        ++ Rx.shiftActions (waited post delay i n) (Rx.actions rest))
       (Rx.shiftSettle (waited post delay i n) (Rx.settle rest)))
  <$> Rx.retryLoop (handleRefreshRetry config) (exchange callbackContext request post)
        fuel (i + n)%nat.
Proof.
  intros delay warning.
  revert i. induction n as [|n IH]; intros i Hlost.
  - rewrite Nat.add_0_r. simpl.
    destruct (Rx.retryLoop _ _ fuel i) as [[acts s]|]; simpl; [|done].
    by rewrite RxFacts.shiftActions_0, RxFacts.shiftSettle_0.
  - destruct (Hlost 0%nat) as (t & e & Hpost & He); [lia|].
    rewrite Nat.add_0_r in Hpost.
    change (S n + fuel)%nat with (S (n + fuel)).
    cbn [Rx.retryLoop].
    assert (Hattempt : exchange callbackContext request post i =
                       Rx.mkObs [(0, request)] (Rx.At t (Rx.Error e))).
    { unfold exchange, Rx.switchMap. simpl. by rewrite Hpost. }
    assert (Hinner : handleRefreshRetry config e (N.of_nat i) =
                     Rx.mkObs [(0, warning); (0, Timer delay)] (Rx.At delay (Rx.Next 0))).
    { unfold handleRefreshRetry. by rewrite He. }
    rewrite Hattempt. cbn [Rx.settle Rx.actions].
    rewrite Hinner. cbn [Rx.settle Rx.actions].
    rewrite IH; last first.
    { intros k Hk. rewrite Nat.add_succ_comm. apply Hlost. lia. }
    replace (i + S n)%nat with (S i + n)%nat by lia.
    destruct (Rx.retryLoop _ _ fuel (S i + n)) as [[acts s]|]; simpl; [|done].
    rewrite Hpost. simpl. rewrite N.add_0_r.
    f_equal. f_equal.
    + rewrite RxFacts.shiftActions_app, RxFacts.shiftActions_shiftActions. done.
    + by rewrite RxFacts.shiftSettle_shiftSettle.
Qed.

(** C3.  With the state check passed and a token endpoint cached:
    - when the first [n] POSTs fail for want of connectivity and the next
      one is answered, the exchange succeeds with the answer attached to
      the context, after [n + 1] POSTs, each retry issued
      [refreshTokenRetryInSeconds * 1000] ms after the failure before it;
      [n] is arbitrary, the retries are not bounded;
    - when a POST fails in any other way, the exchange fails at once with
      an error carrying the authority, after that one POST and without a
      timer; for [n = 0] this is a failure after exactly one attempt;
    - as long as every POST fails for want of connectivity the exchange
      does not settle, however many subscriptions are allowed. *)
Theorem codeFlowCodeRequest_retry_policy (callbackContext : CallbackContext)
    (config : OpenIdConfiguration) (world : CodeRequestWorld) (url : string) :
  state callbackContext = authStateControl world ->
  authWellKnownEndPoints world ≫= tokenEndpoint = Some url ->
  truthy (Some url) = true ->
  let delay := refreshTokenRetryInSeconds config * 1000 in
  let reads :=
    [GetAuthStateControl (configId config);
     StorageRead "authWellKnownEndPoints" (configId config)] in
  let request :=
    HttpPost url
      (createBodyForCodeFlowCodeRequest
         (code callbackContext) config (customParamsCodeRequest config))
      (configId config)
      [("Content-Type", "application/x-www-form-urlencoded")] in
  let warning :=
    logWarning config
      ("OidcService code request " +:+ authority config +:+ " - no internet connection") in
  let tagged := "OidcService code request " +:+ authority config in
  let retries (n : nat) := mjoin (replicate n [request; warning; Timer delay]) in
  (forall n t response,
     (forall k, (k < n)%nat -> connectivityLost (post world k)) ->
     post world n = Rx.At t (Rx.Next response) ->
     forall fuel, (n < fuel)%nat ->
     exists o,
       codeFlowCodeRequest createBodyForCodeFlowCodeRequest
         callbackContext config world fuel = Some o /\
       Rx.settle o =
         Rx.At (waited (post world) delay 0 n + t)
           (Rx.Next (withAuthResult callbackContext response)) /\
       Rx.calls o = reads ++ retries n ++ [request]) /\
  (forall n t e,
     (forall k, (k < n)%nat -> connectivityLost (post world k)) ->
     post world n = Rx.At t (Rx.Error e) ->
     isConnectivityLoss e = false ->
     forall fuel, (n < fuel)%nat ->
     exists o,
       codeFlowCodeRequest createBodyForCodeFlowCodeRequest
         callbackContext config world fuel = Some o /\
       Rx.settle o =
         Rx.At (waited (post world) delay 0 n + t) (Rx.Error (ErrorMsg tagged)) /\
       Rx.calls o = reads ++ retries n ++ [request; logError config tagged]) /\
  ((forall k, connectivityLost (post world k)) ->
   forall fuel,
     codeFlowCodeRequest createBodyForCodeFlowCodeRequest
       callbackContext config world fuel = None).
Proof.
  intros Hstate Hendpoint Htruthy delay reads request warning tagged retries.
  assert (Hunfold : forall fuel,
    codeFlowCodeRequest createBodyForCodeFlowCodeRequest callbackContext config world fuel =
    Rx.doing reads
      <$> (Rx.catchError
             (fun _ => Rx.doing [logError config tagged] (Rx.throwError (ErrorMsg tagged)))
             <$> Rx.retryLoop (handleRefreshRetry config)
                   (exchange callbackContext request (post world)) fuel 0%nat)).
  { intros fuel. unfold codeFlowCodeRequest, validateStateFromHashCallback.
    rewrite bool_decide_eq_true_2 by done.
    rewrite Hendpoint, Htruthy. reflexivity. }
  assert (Hprefix := fun n fuel =>
    retryLoop_connectivity callbackContext config request (post world) n 0 fuel).
  cbv zeta in Hprefix. fold delay warning in Hprefix.
  split; [|split].
  - intros n t response Hlost Hanswer fuel Hfuel.
    destruct (Nat.le_exists_sub (S n) fuel) as (m & -> & _); [lia|].
    rewrite Hunfold. replace (m + S n)%nat with (n + S m)%nat by lia.
    rewrite Hprefix by done.
    change (0 + n)%nat with n.
    cbn [Rx.retryLoop]. unfold exchange, Rx.switchMap. cbn [Rx.settle Rx.actions].
    rewrite Hanswer. simpl.
    eexists; split; [reflexivity|]. split.
    + simpl. by rewrite N.add_0_r.
    + unfold Rx.calls. simpl.
      rewrite List.map_app, calls_retried. done.
  - intros n t e Hlost Hfails He fuel Hfuel.
    destruct (Nat.le_exists_sub (S n) fuel) as (m & -> & _); [lia|].
    rewrite Hunfold. replace (m + S n)%nat with (n + S m)%nat by lia.
    rewrite Hprefix by done.
    change (0 + n)%nat with n.
    cbn [Rx.retryLoop]. unfold exchange, Rx.switchMap. cbn [Rx.settle Rx.actions].
    rewrite Hfails. cbn [Rx.settle Rx.actions].
    unfold handleRefreshRetry. rewrite He. simpl.
    eexists; split; [reflexivity|]. split.
    + simpl. by rewrite !N.add_0_r.
    + unfold Rx.calls. simpl.
      rewrite !List.map_app, calls_retried. by rewrite <- app_assoc.
  - intros Hlost fuel.
    rewrite Hunfold. replace fuel with (fuel + 0)%nat by lia.
    rewrite Hprefix by done. done.
Qed.

(** C6.  When the stored anti-forgery value differs from the state of the
    context, [codeFlowCodeRequest] fails with 'codeFlowCodeRequest
    incorrect state' having only read that value: the cached metadata is
    not even read, so the comparison comes before the token-endpoint
    check, whatever the metadata holds.  When the two are equal and the
    cached metadata has no token endpoint, it fails with 'Token Endpoint
    not defined'.  In both cases no call reaches the network. *)
Theorem codeFlowCodeRequest_guards (callbackContext : CallbackContext)
    (config : OpenIdConfiguration) (world : CodeRequestWorld) (fuel : nat) :
  (state callbackContext <> authStateControl world ->
     exists o,
       codeFlowCodeRequest createBodyForCodeFlowCodeRequest
         callbackContext config world fuel = Some o /\
       Rx.settle o = Rx.At 0 (Rx.Error (ErrorMsg "codeFlowCodeRequest incorrect state")) /\
       Rx.calls o = [GetAuthStateControl (configId config)] /\
       Forall (fun a => isNetworkCall a = false) (Rx.calls o)) /\
  (state callbackContext = authStateControl world ->
   truthy (authWellKnownEndPoints world ≫= tokenEndpoint) = false ->
     exists o,
       codeFlowCodeRequest createBodyForCodeFlowCodeRequest
         callbackContext config world fuel = Some o /\
       Rx.settle o = Rx.At 0 (Rx.Error (ErrorMsg "Token Endpoint not defined")) /\
       Rx.calls o =
         [GetAuthStateControl (configId config);
          StorageRead "authWellKnownEndPoints" (configId config)] /\
       Forall (fun a => isNetworkCall a = false) (Rx.calls o)).
Proof.
  split.
  - intros Hneq. unfold codeFlowCodeRequest, validateStateFromHashCallback.
    rewrite bool_decide_eq_false_2 by done. simpl.
    eexists; repeat split. repeat constructor.
  - intros Heq Hnone. unfold codeFlowCodeRequest, validateStateFromHashCallback.
    rewrite bool_decide_eq_true_2 by done. simpl.
    rewrite Hnone. simpl.
    eexists; repeat split. repeat constructor.
Qed.

End CodeFlowCodeRequest.

(** ** The implicit-flow callback *)

Lemma applyAction_reset_cleared (config : OpenIdConfiguration) (flags : Flags) :
  isSilentRenewRunning config
    (applyAction flags (ResetSilentRenewRunning (configId config))) = false.
Proof.
  unfold isSilentRenewRunning, applyAction, resetSilentRenewRunning.
  apply bool_decide_eq_false_2.
  rewrite elem_of_difference, elem_of_singleton. tauto.
Qed.

(** C8.  When the delegated processing fails with [e] at time [t],
    whatever calls the delegate made, [authenticatedImplicitFlowCallback]
    then clears the flag of the configuration and stops the periodic token
    check, navigates to [unauthorizedRoute] exactly when
    [triggerAuthorizationResultEvent] is off and the flag read before the
    delegation was clear, and fails at [t] with [new Error(e)]; the flag
    is clear afterwards. *)
Theorem authenticatedImplicitFlowCallback_failure (config : OpenIdConfiguration)
    (allConfigs : list OpenIdConfiguration) (hash : option string)
    (world : ImplicitWorld) (t : N) (e : JsError) :
  let delegate := processImplicitFlowCallback world config allConfigs hash in
  let result := authenticatedImplicitFlowCallback config allConfigs hash world in
  let navigates :=
    negb (triggerAuthorizationResultEvent config)
    && negb (isSilentRenewRunning config (flagsAtCall world)) in
  Rx.settle delegate = Rx.At t (Rx.Error e) ->
  Rx.settle result = Rx.At t (Rx.Error (ErrorOf e)) /\
  (exists added,
     Rx.actions result =
       (0, ProcessImplicitFlowCallback (configId config) hash)
       :: Rx.actions delegate ++ List.map (fun a => (t, a)) added /\
     added =
       [ResetSilentRenewRunning (configId config); StopPeriodicTokenCheck]
       ++ (if navigates then [NavigateByUrl (unauthorizedRoute config)] else []) /\
     (NavigateByUrl (unauthorizedRoute config) ∈ added <->
      triggerAuthorizationResultEvent config = false /\
      isSilentRenewRunning config (flagsAtCall world) = false)) /\
  isSilentRenewRunning config (Rx.flagsAfter result (flagsAtCall world)) = false.
Proof.
  intros delegate result navigates Hfails.
  assert (Hresult : result =
    Rx.mkObs
      ((0, ProcessImplicitFlowCallback (configId config) hash)
       :: Rx.actions delegate
       ++ List.map (fun a => (t, a))
            ([ResetSilentRenewRunning (configId config); StopPeriodicTokenCheck]
             ++ (if navigates then [NavigateByUrl (unauthorizedRoute config)] else [])))
      (Rx.At t (Rx.Error (ErrorOf e)))).
  { subst result. unfold authenticatedImplicitFlowCallback.
    unfold Rx.tap, Rx.switchMap, Rx.catchError. simpl.
    fold delegate. rewrite Hfails. simpl. fold navigates.
    rewrite !N.add_0_r. f_equal. f_equal. f_equal.
    destruct navigates; simpl; by rewrite ?N.add_0_r. }
  rewrite Hresult. split; [done|]. split.
  - eexists. split; [reflexivity|]. split; [reflexivity|].
    subst navigates.
    destruct (triggerAuthorizationResultEvent config),
      (isSilentRenewRunning config (flagsAtCall world)); simpl;
      rewrite ?elem_of_cons, ?elem_of_nil; intuition congruence.
  - unfold Rx.flagsAfter, Rx.calls. simpl.
    rewrite List.map_app, foldl_app.
    set (flags := foldl applyAction _ (List.map snd (Rx.actions delegate))).
    assert (Hcleared := applyAction_reset_cleared config flags).
    destruct navigates; simpl; exact Hcleared.
Qed.

(** ** Starting a renewal *)

Section StartRefreshSession.

Variable isCurrentFlowCodeFlowWithRefreshTokens : OpenIdConfiguration -> bool.

(** C4.  [startRefreshSession] makes no call but its log lines and returns
    [of(null)] when the flag of the configuration is set, and likewise,
    after logging an error, when no well-known URL is configured: no
    metadata fetch, no renewal, no flag set, on any subscription.
    Otherwise a subscription first fetches the metadata; the flag is set
    and the renewal dispatched, in this order, at the moment the fetch
    emits, and not at all when the fetch fails, completes empty or never
    settles. *)
Theorem startRefreshSession_gate (config : OpenIdConfiguration)
    (extraCustomParams : option Params) (flags : Flags) :
  let checking (running : bool) :=
    logDebug config
      ("Checking: silentRenewRunning: " +:+ (if running then "true" else "false")) in
  let url := default "" (authWellknownEndpointUrl config) in
  let start :=
    startRefreshSession isCurrentFlowCodeFlowWithRefreshTokens
      config extraCustomParams flags in
  let fetch := GetAuthWellKnownEndPoints url (configId config) in
  let dispatch :=
    if isCurrentFlowCodeFlowWithRefreshTokens config
    then RefreshSessionWithRefreshTokens (configId config) extraCustomParams
    else RefreshSessionWithIframe (configId config) extraCustomParams in
  let renewal (collaborators : RenewAttempt) :=
    if isCurrentFlowCodeFlowWithRefreshTokens config
    then refreshSessionWithRefreshTokens collaborators
    else refreshSessionWithIframe collaborators in
  (isSilentRenewRunning config flags = true ->
     eager start = [checking true] /\
     forall collaborators,
       Rx.actions (cold start collaborators) = [] /\
       Rx.settle (cold start collaborators) = Rx.At 0 (Rx.Next RenewNull)) /\
  (isSilentRenewRunning config flags = false ->
   truthy (authWellknownEndpointUrl config) = false ->
     eager start = [checking false; logError config "no authWellKnownEndpoint given!"] /\
     forall collaborators,
       Rx.actions (cold start collaborators) = [] /\
       Rx.settle (cold start collaborators) = Rx.At 0 (Rx.Next RenewNull)) /\
  (isSilentRenewRunning config flags = false ->
   truthy (authWellknownEndpointUrl config) = true ->
     eager start = [checking false] /\
     forall collaborators,
       (forall t metadata,
          getAuthWellKnownEndPoints collaborators = Rx.At t (Rx.Next metadata) ->
          Rx.actions (cold start collaborators) =
            [(0, fetch); (t, SetSilentRenewRunning (configId config)); (t, dispatch)] /\
          Rx.settle (cold start collaborators) = Rx.shiftSettle t (renewal collaborators)) /\
       ((forall t metadata,
           getAuthWellKnownEndPoints collaborators <> Rx.At t (Rx.Next metadata)) ->
          Rx.actions (cold start collaborators) = [(0, fetch)] /\
          forall t result,
            Rx.settle (cold start collaborators) <> Rx.At t (Rx.Next result))).
Proof.
  intros checking url start fetch dispatch renewal.
  subst start. unfold startRefreshSession.
  split; [|split].
  - intros ->. simpl. done.
  - intros -> ->. simpl. done.
  - intros -> ->. simpl. split; [done|].
    intros collaborators. split.
    + intros t metadata Hfetch. unfold Rx.switchMap. simpl.
      rewrite Hfetch. simpl. rewrite N.add_0_r.
      subst dispatch renewal fetch url.
      destruct (isCurrentFlowCodeFlowWithRefreshTokens config); simpl;
        by rewrite N.add_0_r.
    + intros Hnone. unfold Rx.switchMap. simpl.
      destruct (getAuthWellKnownEndPoints collaborators) as [t [metadata|e|]|] eqn:Hfetch;
        simpl; try done.
      by destruct (Hnone t metadata).
Qed.

End StartRefreshSession.

(** ** Forcing a renewal *)

Section ForceRefreshSession.

Variable isCurrentFlowCodeFlowWithRefreshTokens : OpenIdConfiguration -> bool.

(** With the gate open, what a subscription does once the metadata fetch
    has emitted. *)
Lemma startRefreshSession_fetched (config : OpenIdConfiguration)
    (extraCustomParams : option Params) (flags : Flags)
    (collaborators : RenewAttempt) (t : N) (metadata : AuthWellKnownEndpoints) :
  isSilentRenewRunning config flags = false ->
  truthy (authWellknownEndpointUrl config) = true ->
  getAuthWellKnownEndPoints collaborators = Rx.At t (Rx.Next metadata) ->
  let started :=
    cold (startRefreshSession isCurrentFlowCodeFlowWithRefreshTokens
            config extraCustomParams flags) collaborators in
  Rx.actions started =
    [(0, GetAuthWellKnownEndPoints
           (default "" (authWellknownEndpointUrl config)) (configId config));
     (t, SetSilentRenewRunning (configId config));
     (t, if isCurrentFlowCodeFlowWithRefreshTokens config
         then RefreshSessionWithRefreshTokens (configId config) extraCustomParams
         else RefreshSessionWithIframe (configId config) extraCustomParams)] /\
  Rx.settle started =
    Rx.shiftSettle t
      (if isCurrentFlowCodeFlowWithRefreshTokens config
       then refreshSessionWithRefreshTokens collaborators
       else refreshSessionWithIframe collaborators).
Proof.
  intros Hflag Hurl Hfetch. unfold startRefreshSession.
  rewrite Hflag, Hurl. simpl. unfold Rx.switchMap. simpl.
  rewrite Hfetch. simpl. rewrite N.add_0_r.
  destruct (isCurrentFlowCodeFlowWithRefreshTokens config); simpl;
    by rewrite N.add_0_r.
Qed.

(** With the gate closed, a subscription emits [null] at once. *)
Lemma startRefreshSession_closed (config : OpenIdConfiguration)
    (extraCustomParams : option Params) (flags : Flags)
    (collaborators : RenewAttempt) :
  isSilentRenewRunning config flags = true \/
  truthy (authWellknownEndpointUrl config) = false ->
  cold (startRefreshSession isCurrentFlowCodeFlowWithRefreshTokens
          config extraCustomParams flags) collaborators = Rx.of_ RenewNull.
Proof.
  unfold startRefreshSession.
  intros [-> | ->]; simpl; [done|].
  by destruct (isSilentRenewRunning config flags).
Qed.

Lemma startRefreshSession_eager (config : OpenIdConfiguration)
    (extraCustomParams : option Params) (flags : Flags) (a : Action) :
  a ∈ eager (startRefreshSession isCurrentFlowCodeFlowWithRefreshTokens
               config extraCustomParams flags) ->
  exists level message, a = Log level (configId config) message.
Proof.
  unfold startRefreshSession.
  destruct (isSilentRenewRunning config flags),
    (truthy (authWellknownEndpointUrl config)); simpl;
    rewrite ?elem_of_cons, ?elem_of_nil; unfold logDebug, logError;
    intuition eauto.
Qed.

Lemma startRefreshSession_calls (config : OpenIdConfiguration)
    (extraCustomParams : option Params) (flags : Flags)
    (collaborators : RenewAttempt) (a : Action) :
  a ∈ Rx.calls
        (cold (startRefreshSession isCurrentFlowCodeFlowWithRefreshTokens
                 config extraCustomParams flags) collaborators) ->
  a = GetAuthWellKnownEndPoints
        (default "" (authWellknownEndpointUrl config)) (configId config) \/
  a = SetSilentRenewRunning (configId config) \/
  (isCurrentFlowCodeFlowWithRefreshTokens config = true /\
   a = RefreshSessionWithRefreshTokens (configId config) extraCustomParams) \/
  (isCurrentFlowCodeFlowWithRefreshTokens config = false /\
   a = RefreshSessionWithIframe (configId config) extraCustomParams).
Proof.
  unfold startRefreshSession, Rx.calls, Rx.switchMap.
  destruct (isSilentRenewRunning config flags),
    (truthy (authWellknownEndpointUrl config)); simpl;
    rewrite ?elem_of_nil; try tauto.
  destruct (getAuthWellKnownEndPoints collaborators) as [t [metadata|e|]|];
    destruct (isCurrentFlowCodeFlowWithRefreshTokens config); simpl;
    rewrite ?elem_of_cons, ?elem_of_nil; intuition eauto.
Qed.

Lemma forceRefreshSession_refresh (config : OpenIdConfiguration)
    (extraCustomParams : option Params) (world : RefreshWorld) (fuel : nat) :
  isCurrentFlowCodeFlowWithRefreshTokens config = true ->
  let start :=
    startRefreshSession isCurrentFlowCodeFlowWithRefreshTokens config
      (Some (spread (customParamsRefreshTokenRequest config) extraCustomParams))
      (silentRenewRunning world) in
  forceRefreshSession isCurrentFlowCodeFlowWithRefreshTokens
    config extraCustomParams world fuel =
  Some
    (Rx.doing (eager start)
       (Rx.map (fun _ => storedLoginResponse config (stores world))
          (cold start (attempt world 0%nat)))).
Proof.
  intros Hflow start. unfold forceRefreshSession. by rewrite Hflow.
Qed.

(** C7.  For a configuration whose flow is the code flow with refresh
    tokens, [forceRefreshSession] makes the calls of [startRefreshSession]
    (given the merged parameters) and no other: it starts no timer and
    does not subscribe to the iframe-completed signal.  When
    [startRefreshSession] emits at [t], however late that is, it emits at
    [t] the [LoginResponse] made of the stored ID token, access token and
    user data, authenticated and carrying the configuration id, if the
    stored tokens are valid, and [null] if they are not.  An error of
    [startRefreshSession] is passed on as it is, and while it has not
    settled nothing is emitted: there is neither a timeout nor a retry. *)
Theorem forceRefreshSession_refresh_tokens (config : OpenIdConfiguration)
    (extraCustomParams : option Params) (world : RefreshWorld) (fuel : nat) :
  isCurrentFlowCodeFlowWithRefreshTokens config = true ->
  let mergedParams := spread (customParamsRefreshTokenRequest config) extraCustomParams in
  let start :=
    startRefreshSession isCurrentFlowCodeFlowWithRefreshTokens
      config (Some mergedParams) (silentRenewRunning world) in
  let started := cold start (attempt world 0%nat) in
  let response :=
    if areAuthStorageTokensValid (stores world) then
      Some {|
        idToken := getIdToken (stores world);
        accessToken := getAccessToken (stores world);
        userData := getUserDataFromStore (stores world);
        isAuthenticated := true;
        loginConfigId := configId config;
      |}
    else None in
  exists o,
    forceRefreshSession isCurrentFlowCodeFlowWithRefreshTokens
      config extraCustomParams world fuel = Some o /\
    Rx.calls o = eager start ++ Rx.calls started /\
    (forall t result,
       Rx.settle started = Rx.At t (Rx.Next result) ->
       Rx.settle o = Rx.At t (Rx.Next response)) /\
    (forall t e,
       Rx.settle started = Rx.At t (Rx.Error e) ->
       Rx.settle o = Rx.At t (Rx.Error e)) /\
    (Rx.settle started = Rx.Never -> Rx.settle o = Rx.Never) /\
    (SubscribeIFrameCompleted ∉ Rx.calls o) /\
    (forall due, Timer due ∉ Rx.calls o).
Proof.
  intros Hflow mergedParams start started response.
  rewrite (forceRefreshSession_refresh _ _ _ _ Hflow).
  fold mergedParams. fold start. fold started.
  eexists. split; [reflexivity|].
  rewrite !RxFacts.calls_doing, !RxFacts.calls_map.
  rewrite RxFacts.settle_doing, RxFacts.settle_map.
  split; [done|].
  assert (Hother : forall a, a ∈ eager start ++ Rx.calls started ->
            a <> SubscribeIFrameCompleted /\ forall due, a <> Timer due).
  { intros a [Ha|Ha]%elem_of_app.
    - apply startRefreshSession_eager in Ha as (level & message & ->). done.
    - apply startRefreshSession_calls in Ha.
      destruct Ha as [->|[->|[[_ ->]|[_ ->]]]]; done. }
  repeat split.
  - intros t result ->. subst response. unfold storedLoginResponse.
    by destruct (areAuthStorageTokensValid (stores world)).
  - by intros t e ->.
  - by intros ->.
  - intros Hin. by destruct (Hother _ Hin) as [Hneq _].
  - intros due Hin. destruct (Hother _ Hin) as [_ Hneq]. by destruct (Hneq due).
Qed.

(** On the iframe path the notifier given to [retryWhen] throws when it
    is called, on the first error of the first subscription: the result
    is that subscription with its error replaced. *)
Lemma forceRefreshSession_iframe (config : OpenIdConfiguration)
    (extraCustomParams : option Params) (world : RefreshWorld) (fuel : nat) :
  isCurrentFlowCodeFlowWithRefreshTokens config = false ->
  let start :=
    startRefreshSession isCurrentFlowCodeFlowWithRefreshTokens
      config extraCustomParams (silentRenewRunning world) in
  let timeOutTime := silentRenewTimeoutInSeconds config * 1000 in
  exists thrown,
    forceRefreshSession isCurrentFlowCodeFlowWithRefreshTokens
      config extraCustomParams world fuel =
    Some
      (Rx.doing (eager start)
         (Rx.map
            (fun '((_, callbackContext) : RenewResult * option CallbackContext) =>
               loginResponseOf config (stores world) callbackContext)
            (Rx.catchError (fun _ => Rx.throwError thrown)
               (renewalUnderTimeout start timeOutTime (attempt world 0%nat))))).
Proof.
  intros Hflow start timeOutTime.
  unfold forceRefreshSession. rewrite Hflow.
  eexists. reflexivity.
Qed.

(** Every call of [forceRefreshSession] on the iframe path is a call of
    [startRefreshSession] or the subscription to the completed signal. *)
Lemma forceRefreshSession_iframe_calls (config : OpenIdConfiguration)
    (extraCustomParams : option Params) (world : RefreshWorld) (fuel : nat)
    (o : Rx.Obs (option LoginResponse)) (a : Action) :
  isCurrentFlowCodeFlowWithRefreshTokens config = false ->
  forceRefreshSession isCurrentFlowCodeFlowWithRefreshTokens
    config extraCustomParams world fuel = Some o ->
  a ∈ Rx.calls o ->
  let start :=
    startRefreshSession isCurrentFlowCodeFlowWithRefreshTokens
      config extraCustomParams (silentRenewRunning world) in
  a ∈ eager start \/
  a ∈ Rx.calls (cold start (attempt world 0%nat)) \/
  a = SubscribeIFrameCompleted.
Proof.
  intros Hflow Hrun Hin start.
  destruct (forceRefreshSession_iframe config extraCustomParams world fuel Hflow)
    as [thrown Hunfold].
  rewrite Hunfold in Hrun. injection Hrun as <-.
  rewrite RxFacts.calls_doing, RxFacts.calls_map in Hin.
  apply elem_of_app in Hin as [Hin|Hin]; [by left|right].
  apply RxFacts.elem_of_calls in Hin as [t Hin].
  rewrite RxFacts.actions_catchError_thrown in Hin.
  unfold renewalUnderTimeout in Hin.
  apply RxFacts.elem_of_timeout, RxFacts.elem_of_forkJoin in Hin.
  destruct Hin as [Hin|Hin].
  - left. apply RxFacts.elem_of_calls. by exists t.
  - right. unfold Rx.take1 in Hin. simpl in Hin.
    apply list_elem_of_singleton in Hin. congruence.
Qed.

(** A call that [startRefreshSession] makes before the timeout is a call
    of [forceRefreshSession] on the iframe path. *)
Lemma forceRefreshSession_iframe_early_call (config : OpenIdConfiguration)
    (extraCustomParams : option Params) (world : RefreshWorld) (fuel : nat)
    (t : N) (a : Action) :
  isCurrentFlowCodeFlowWithRefreshTokens config = false ->
  signalOnly (refreshSessionWithIFrameCompleted (attempt world 0%nat)) ->
  t < silentRenewTimeoutInSeconds config * 1000 ->
  (t, a) ∈ Rx.actions
             (cold (startRefreshSession isCurrentFlowCodeFlowWithRefreshTokens
                      config extraCustomParams (silentRenewRunning world))
                (attempt world 0%nat)) ->
  exists o,
    forceRefreshSession isCurrentFlowCodeFlowWithRefreshTokens
      config extraCustomParams world fuel = Some o /\
    a ∈ Rx.calls o.
Proof.
  intros Hflow Hsignal Ht Hin.
  destruct (forceRefreshSession_iframe config extraCustomParams world fuel Hflow)
    as [thrown Hunfold].
  eexists. split; [exact Hunfold|].
  rewrite RxFacts.calls_doing, RxFacts.calls_map.
  apply elem_of_app. right.
  apply RxFacts.elem_of_calls. exists t.
  rewrite RxFacts.actions_catchError_thrown.
  unfold renewalUnderTimeout.
  apply RxFacts.timeout_keeps_early; [done|].
  by apply RxFacts.forkJoin_keeps_first.
Qed.

Lemma lookup_spread (a b : option Params) (key : string) :
  spread a b !! key =
  match default ∅ b !! key with
  | Some value => Some value
  | None => default ∅ a !! key
  end.
Proof.
  unfold spread. rewrite lookup_union.
  by destruct (default ∅ b !! key), (default ∅ a !! key).
Qed.

(** C10.  The merged parameters hold, for every key, the value of the
    caller's extra parameters if they have the key and that of
    [customParamsRefreshTokenRequest] otherwise.  Whenever
    [forceRefreshSession] dispatches a refresh-token renewal the flow is
    the code flow with refresh tokens and the parameters are the merged
    ones; whenever it dispatches an iframe renewal the flow is another one
    and the parameters are the caller's extra parameters as they came.
    Both dispatches do happen once the metadata fetch has emitted (on the
    iframe path, before the timeout). *)
Theorem forceRefreshSession_custom_params (config : OpenIdConfiguration)
    (extraCustomParams : option Params) (world : RefreshWorld) (fuel : nat) :
  let mergedParams := spread (customParamsRefreshTokenRequest config) extraCustomParams in
  let run :=
    forceRefreshSession isCurrentFlowCodeFlowWithRefreshTokens
      config extraCustomParams world fuel in
  (forall key,
     mergedParams !! key =
     match default ∅ extraCustomParams !! key with
     | Some value => Some value
     | None => default ∅ (customParamsRefreshTokenRequest config) !! key
     end) /\
  (forall o id params,
     run = Some o ->
     (RefreshSessionWithRefreshTokens id params ∈ Rx.calls o ->
      isCurrentFlowCodeFlowWithRefreshTokens config = true /\
      params = Some mergedParams) /\
     (RefreshSessionWithIframe id params ∈ Rx.calls o ->
      isCurrentFlowCodeFlowWithRefreshTokens config = false /\
      params = extraCustomParams)) /\
  (forall t metadata,
     isSilentRenewRunning config (silentRenewRunning world) = false ->
     truthy (authWellknownEndpointUrl config) = true ->
     getAuthWellKnownEndPoints (attempt world 0%nat) = Rx.At t (Rx.Next metadata) ->
     (isCurrentFlowCodeFlowWithRefreshTokens config = true ->
      exists o,
        run = Some o /\
        RefreshSessionWithRefreshTokens (configId config) (Some mergedParams)
          ∈ Rx.calls o) /\
     (isCurrentFlowCodeFlowWithRefreshTokens config = false ->
      signalOnly (refreshSessionWithIFrameCompleted (attempt world 0%nat)) ->
      t < silentRenewTimeoutInSeconds config * 1000 ->
      exists o,
        run = Some o /\
        RefreshSessionWithIframe (configId config) extraCustomParams ∈ Rx.calls o)).
Proof.
  intros mergedParams run. split; [|split].
  - intros key. apply lookup_spread.
  - intros o id params Hrun.
    destruct (isCurrentFlowCodeFlowWithRefreshTokens config) eqn:Hflow.
    + subst run. rewrite (forceRefreshSession_refresh _ _ _ _ Hflow) in Hrun.
      injection Hrun as <-.
      rewrite !RxFacts.calls_doing, !RxFacts.calls_map.
      split; intros [Hin|Hin]%elem_of_app.
      * apply startRefreshSession_eager in Hin as (? & ? & ?). done.
      * apply startRefreshSession_calls in Hin.
        destruct Hin as [?|[?|[[_ Heq]|[Hno _]]]]; try done; [|congruence].
        injection Heq as _ ->. done.
      * apply startRefreshSession_eager in Hin as (? & ? & ?). done.
      * apply startRefreshSession_calls in Hin.
        destruct Hin as [?|[?|[[_ ?]|[Hno _]]]]; try done. congruence.
    + assert (Hwhich : forall a, a ∈ Rx.calls o ->
                (forall id' params', a <> RefreshSessionWithRefreshTokens id' params') /\
                (forall id' params', a = RefreshSessionWithIframe id' params' ->
                   params' = extraCustomParams)).
      { intros a Hin.
        destruct (forceRefreshSession_iframe_calls
                    config extraCustomParams world fuel o a Hflow Hrun Hin)
          as [Ha|[Ha| ->]]; [| |done].
        - apply startRefreshSession_eager in Ha as (? & ? & ->). done.
        - apply startRefreshSession_calls in Ha.
          destruct Ha as [->|[->|[[Hyes _]|[_ ->]]]]; try done; [congruence|].
          split; [done|]. by intros id' params' [= _ <-]. }
      split; intros Hin; destruct (Hwhich _ Hin) as [Hnot Hparams].
      * by destruct (Hnot id params).
      * split; [done|]. by apply (Hparams id params).
  - intros t metadata Hflag Hurl Hfetch.
    assert (Hstart := fun extra =>
      proj1 (startRefreshSession_fetched config extra (silentRenewRunning world)
               (attempt world 0%nat) t metadata Hflag Hurl Hfetch)).
    cbv zeta in Hstart.
    split.
    + intros Hflow. subst run.
      rewrite (forceRefreshSession_refresh _ _ _ _ Hflow).
      eexists. split; [reflexivity|].
      rewrite !RxFacts.calls_doing, !RxFacts.calls_map.
      apply elem_of_app. right. unfold Rx.calls.
      rewrite Hstart, Hflow. simpl. rewrite !elem_of_cons. tauto.
    + intros Hflow Hsignal Ht.
      apply (forceRefreshSession_iframe_early_call
               config extraCustomParams world fuel t); try done.
      rewrite Hstart, Hflow. rewrite !elem_of_cons. tauto.
Qed.

(** The outcome of [forceRefreshSession] on the iframe path, from that of
    the first subscription. *)
Lemma forceRefreshSession_iframe_settle (config : OpenIdConfiguration)
    (extraCustomParams : option Params) (world : RefreshWorld) (fuel : nat) :
  isCurrentFlowCodeFlowWithRefreshTokens config = false ->
  let start :=
    startRefreshSession isCurrentFlowCodeFlowWithRefreshTokens
      config extraCustomParams (silentRenewRunning world) in
  let first :=
    renewalUnderTimeout start (silentRenewTimeoutInSeconds config * 1000)
      (attempt world 0%nat) in
  exists o thrown,
    forceRefreshSession isCurrentFlowCodeFlowWithRefreshTokens
      config extraCustomParams world fuel = Some o /\
    Rx.settle o =
      match Rx.settle first with
      | Rx.At t (Rx.Next (_, callbackContext)) =>
          Rx.At t (Rx.Next (loginResponseOf config (stores world) callbackContext))
      | Rx.At t (Rx.Error _) => Rx.At t (Rx.Error thrown)
      | Rx.At t Rx.Complete => Rx.At t Rx.Complete
      | Rx.Never => Rx.Never
      end.
Proof.
  intros Hflow start first.
  destruct (forceRefreshSession_iframe config extraCustomParams world fuel Hflow)
    as [thrown Hunfold].
  eexists. exists thrown. split; [exact Hunfold|].
  rewrite RxFacts.settle_doing, RxFacts.settle_map, RxFacts.settle_catchError_thrown.
  fold start. fold first.
  by destruct (Rx.settle first) as [t [[result callbackContext]|e|]|].
Qed.



(** A flag that is set and never cleared is set in the end. *)
Lemma flag_set_and_not_reset (id : string) (l : list Action) (flags : Flags) :
  SetSilentRenewRunning id ∈ l ->
  ResetSilentRenewRunning id ∉ l ->
  id ∈ foldl applyAction flags l.
Proof.
  induction l as [|a l IH] using rev_ind; [by intros ?%elem_of_nil|].
  rewrite foldl_app. simpl.
  rewrite !elem_of_app, !list_elem_of_singleton.
  intros Hset Hreset.
  destruct Hset as [Hset| <-].
  - assert (Hin : id ∈ foldl applyAction flags l) by (apply IH; tauto).
    destruct a; simpl; try done.
    + unfold setSilentRenewRunning. apply elem_of_union. by right.
    + unfold resetSilentRenewRunning.
      apply elem_of_difference. split; [done|].
      rewrite elem_of_singleton. intros ->. tauto.
  - simpl. unfold setSilentRenewRunning. apply elem_of_union. left.
    by apply elem_of_singleton.
Qed.

(** *** The retry strategy *)

(** What [timeoutRetryStrategy] does with the [index]-th error when it is
    given the configuration: up to three timeouts are answered by
    clearing the flag and a timer of 1000, 2000, 3000 ms; any other error,
    and a fourth timeout, by [new Error(error)] and no call at all. *)
Lemma timeoutRetryStrategy_given_config (config : OpenIdConfiguration) :
  exists handler,
    timeoutRetryStrategy (Some config) = inr handler /\
    forall error index,
      handler error index =
      if isTimeoutError error && (index <? MAX_RETRY_ATTEMPTS) then
        Rx.doing
          [logDebug config
             ("forceRefreshSession timeout. Attempt #" +:+ pretty (index + 1));
           ResetSilentRenewRunning (configId config)]
          (Rx.timer ((index + 1) * 1000))
      else Rx.throwError (ErrorOf error).
Proof.
  eexists. split; [reflexivity|].
  intros error index. simpl.
  replace (MAX_RETRY_ATTEMPTS <? index + 1) with (negb (index <? MAX_RETRY_ATTEMPTS)).
  - by destruct (isTimeoutError error), (index <? MAX_RETRY_ATTEMPTS).
  - unfold MAX_RETRY_ATTEMPTS.
    destruct (N.ltb_spec index 3), (N.ltb_spec 3 (index + 1)); simpl; lia.
Qed.

(** Without a reset among the calls, a flag is set in the end exactly
    when it was set at first or one of the calls set it. *)
Lemma flags_without_reset (id : string) (l : list Action) (flags : Flags) :
  ResetSilentRenewRunning id ∉ l ->
  id ∈ foldl applyAction flags l <->
  id ∈ flags \/ SetSilentRenewRunning id ∈ l.
Proof.
  revert flags. induction l as [|a l IH]; intros flags Hno_reset; simpl.
  - rewrite elem_of_nil. tauto.
  - rewrite not_elem_of_cons in Hno_reset. destruct Hno_reset as [Ha Hl].
    rewrite (IH _ Hl), elem_of_cons.
    destruct a; simpl;
      try (split; [intros [?|?]; [by left|by right; right]
                  |intros [?|[?|?]]; [by left|done|by right]]).
    + unfold setSilentRenewRunning. rewrite elem_of_union, elem_of_singleton.
      split.
      * intros [[->|?]|?]; [right; by left|by left|right; by right].
      * intros [?|[[= ->]|?]]; [left; by right|left; by left|by right].
    + unfold resetSilentRenewRunning. rewrite elem_of_difference, elem_of_singleton.
      split.
      * intros [[? _]|?]; [by left|right; by right].
      * intros [?|[?|?]]; [left|done|by right].
        split; [done|]. intros ->. by apply Ha.
Qed.

(** No call of [forceRefreshSession] is a reset of the flag: the one
    reset of the service is in the retry strategy, which does not get to
    run. *)
Lemma forceRefreshSession_makes_no_reset (config : OpenIdConfiguration)
    (extraCustomParams : option Params) (world : RefreshWorld) (fuel : nat)
    (o : Rx.Obs (option LoginResponse)) (id : string) :
  forceRefreshSession isCurrentFlowCodeFlowWithRefreshTokens
    config extraCustomParams world fuel = Some o ->
  ResetSilentRenewRunning id ∉ Rx.calls o.
Proof.
  intros Hrun Hin.
  assert (Hstart : forall extra,
    ResetSilentRenewRunning id
      ∈ eager (startRefreshSession isCurrentFlowCodeFlowWithRefreshTokens
                 config extra (silentRenewRunning world)) \/
    ResetSilentRenewRunning id
      ∈ Rx.calls (cold (startRefreshSession isCurrentFlowCodeFlowWithRefreshTokens
                          config extra (silentRenewRunning world))
                    (attempt world 0%nat)) \/
    ResetSilentRenewRunning id = SubscribeIFrameCompleted ->
    False).
  { intros extra [Ha|[Ha|Ha]]; [| |done].
    - by apply startRefreshSession_eager in Ha as (? & ? & ?).
    - apply startRefreshSession_calls in Ha.
      by destruct Ha as [?|[?|[[_ ?]|[_ ?]]]]. }
  destruct (isCurrentFlowCodeFlowWithRefreshTokens config) eqn:Hflow.
  - rewrite (forceRefreshSession_refresh _ _ _ _ Hflow) in Hrun.
    injection Hrun as <-.
    rewrite RxFacts.calls_doing, RxFacts.calls_map in Hin.
    apply elem_of_app in Hin as [Hin|Hin]; eapply Hstart; eauto.
  - eapply Hstart.
    exact (forceRefreshSession_iframe_calls _ _ _ _ _ _ Hflow Hrun Hin).
Qed.

(** The flag after a run without a reset. *)
Lemma flag_kept (config : OpenIdConfiguration) (l : list Action) (flags : Flags) :
  (forall id, ResetSilentRenewRunning id ∉ l) ->
  isSilentRenewRunning config (foldl applyAction flags l) = true <->
  isSilentRenewRunning config flags = true \/
  SetSilentRenewRunning (configId config) ∈ l.
Proof.
  intros Hno_reset. unfold isSilentRenewRunning.
  rewrite !bool_decide_eq_true.
  apply flags_without_reset, Hno_reset.
Qed.

(** C2 (as amended).  When a renewal attempt fails with an error that is
    not a timeout (on the refresh-token path, with any error),
    [forceRefreshSession] surfaces an error without having called
    [resetSilentRenewRunning]: the flag of the configuration is then set
    exactly when it was set at the call or the attempt had set it.  So
    when the renewal collaborator fails after the metadata fetch emitted,
    the error reaches the caller with the flag still set, on either
    path. *)
Theorem forceRefreshSession_error_keeps_flag (config : OpenIdConfiguration)
    (extraCustomParams : option Params) (world : RefreshWorld) (fuel : nat) :
  let kept (o : Rx.Obs (option LoginResponse)) :=
    (forall id, ResetSilentRenewRunning id ∉ Rx.calls o) /\
    (isSilentRenewRunning config (Rx.flagsAfter o (silentRenewRunning world)) = true <->
     isSilentRenewRunning config (silentRenewRunning world) = true \/
     SetSilentRenewRunning (configId config) ∈ Rx.calls o) in
  (isCurrentFlowCodeFlowWithRefreshTokens config = true ->
   forall t e,
     Rx.settle
       (cold (startRefreshSession isCurrentFlowCodeFlowWithRefreshTokens config
                (Some (spread (customParamsRefreshTokenRequest config) extraCustomParams))
                (silentRenewRunning world))
          (attempt world 0%nat)) = Rx.At t (Rx.Error e) ->
     exists o,
       forceRefreshSession isCurrentFlowCodeFlowWithRefreshTokens
         config extraCustomParams world fuel = Some o /\
       Rx.settle o = Rx.At t (Rx.Error e) /\
       kept o) /\
  (isCurrentFlowCodeFlowWithRefreshTokens config = false ->
   forall t e,
     Rx.settle
       (renewalUnderTimeout
          (startRefreshSession isCurrentFlowCodeFlowWithRefreshTokens config
             extraCustomParams (silentRenewRunning world))
          (silentRenewTimeoutInSeconds config * 1000)
          (attempt world 0%nat)) = Rx.At t (Rx.Error e) ->
     isTimeoutError e = false ->
     exists o e',
       forceRefreshSession isCurrentFlowCodeFlowWithRefreshTokens
         config extraCustomParams world fuel = Some o /\
       Rx.settle o = Rx.At t (Rx.Error e') /\
       kept o) /\
  (forall tw metadata tr e,
     isSilentRenewRunning config (silentRenewRunning world) = false ->
     truthy (authWellknownEndpointUrl config) = true ->
     getAuthWellKnownEndPoints (attempt world 0%nat) = Rx.At tw (Rx.Next metadata) ->
     (if isCurrentFlowCodeFlowWithRefreshTokens config
      then refreshSessionWithRefreshTokens (attempt world 0%nat)
      else refreshSessionWithIframe (attempt world 0%nat)) = Rx.At tr (Rx.Error e) ->
     isTimeoutError e = false ->
     (isCurrentFlowCodeFlowWithRefreshTokens config = false ->
      signalOnly (refreshSessionWithIFrameCompleted (attempt world 0%nat)) /\
      tw + tr < silentRenewTimeoutInSeconds config * 1000) ->
     exists o e',
       forceRefreshSession isCurrentFlowCodeFlowWithRefreshTokens
         config extraCustomParams world fuel = Some o /\
       Rx.settle o = Rx.At (tw + tr) (Rx.Error e') /\
       isSilentRenewRunning config (Rx.flagsAfter o (silentRenewRunning world)) = true).
Proof.
  intros kept.
  assert (Hkept : forall o,
    forceRefreshSession isCurrentFlowCodeFlowWithRefreshTokens
      config extraCustomParams world fuel = Some o -> kept o).
  { intros o Hrun.
    assert (Hno_reset : forall id, ResetSilentRenewRunning id ∉ Rx.calls o).
    { intros id. by eapply forceRefreshSession_makes_no_reset. }
    split; [exact Hno_reset|].
    unfold Rx.flagsAfter. by apply flag_kept. }
  split; [|split].
  - intros Hflow t e Hfails.
    assert (Hrun := forceRefreshSession_refresh
                      config extraCustomParams world fuel Hflow).
    cbv zeta in Hrun.
    eexists. split; [exact Hrun|]. split; [|by apply Hkept].
    by rewrite RxFacts.settle_doing, RxFacts.settle_map, Hfails.
  - intros Hflow t e Hfails He.
    destruct (forceRefreshSession_iframe_settle
                config extraCustomParams world fuel Hflow)
      as (o & thrown & Hrun & Hsettle).
    cbv zeta in Hsettle. rewrite Hfails in Hsettle.
    exists o, thrown. split; [done|]. split; [done|by apply Hkept].
  - intros tw metadata tr e Hflag Hurl Hfetch Hfails He Hiframe.
    assert (Hstarted := fun extra =>
      startRefreshSession_fetched config extra (silentRenewRunning world)
        (attempt world 0%nat) tw metadata Hflag Hurl Hfetch).
    cbv zeta in Hstarted. rewrite Hfails in Hstarted. simpl in Hstarted.
    assert (Hno_reset : forall extra a,
      a ∈ eager (startRefreshSession isCurrentFlowCodeFlowWithRefreshTokens
                   config extra (silentRenewRunning world)) \/
      a ∈ Rx.calls (cold (startRefreshSession isCurrentFlowCodeFlowWithRefreshTokens
                            config extra (silentRenewRunning world))
                      (attempt world 0%nat)) \/
      a = SubscribeIFrameCompleted ->
      a <> ResetSilentRenewRunning (configId config)).
    { intros extra a [Ha|[Ha| ->]]; [| |done].
      - apply startRefreshSession_eager in Ha as (? & ? & ->). done.
      - apply startRefreshSession_calls in Ha.
        destruct Ha as [->|[->|[[_ ->]|[_ ->]]]]; done. }
    destruct (isCurrentFlowCodeFlowWithRefreshTokens config) eqn:Hflow.
    + rewrite (forceRefreshSession_refresh _ _ _ _ Hflow).
      eexists. exists e. split; [reflexivity|].
      rewrite RxFacts.settle_doing, RxFacts.settle_map.
      destruct (Hstarted
                  (Some (spread (customParamsRefreshTokenRequest config) extraCustomParams)))
        as [Hactions ->].
      split; [done|].
      unfold isSilentRenewRunning. apply bool_decide_eq_true_2.
      unfold Rx.flagsAfter. apply flag_set_and_not_reset.
      * rewrite RxFacts.calls_doing, RxFacts.calls_map.
        apply elem_of_app. right. unfold Rx.calls. rewrite Hactions. simpl.
        rewrite !elem_of_cons. tauto.
      * rewrite RxFacts.calls_doing, RxFacts.calls_map.
        intros [Hin|Hin]%elem_of_app.
        -- by apply (Hno_reset _ _ (or_introl Hin)).
        -- by apply (Hno_reset _ _ (or_intror (or_introl Hin))).
    + destruct (Hiframe eq_refl) as [Hsignal Hearly].
      destruct (Hstarted extraCustomParams) as [Hactions Hsettled].
      destruct (forceRefreshSession_iframe_settle
                  config extraCustomParams world fuel Hflow)
        as (o & thrown & Hrun & Hsettle).
      cbv zeta in Hsettle.
      exists o, thrown. split; [done|]. split.
      * rewrite Hsettle.
        unfold renewalUnderTimeout, Rx.timeout, Rx.forkJoin, Rx.take1. simpl.
        rewrite Hsettled.
        assert (Hin_time :
                  (tw + tr <=? silentRenewTimeoutInSeconds config * 1000) = true)
          by (apply N.leb_le; lia).
        destruct Hsignal as [->|(tc & callbackContext & ->)]; simpl;
          by rewrite Hin_time.
      * unfold isSilentRenewRunning. apply bool_decide_eq_true_2.
        unfold Rx.flagsAfter. apply flag_set_and_not_reset.
        -- destruct (forceRefreshSession_iframe_early_call
                       config extraCustomParams world fuel tw
                       (SetSilentRenewRunning (configId config)) Hflow Hsignal)
             as (o' & Hrun' & Hin); [lia| |congruence].
           rewrite Hactions, !elem_of_cons. tauto.
        -- intros Hin.
           by apply (Hno_reset _ _
                       (forceRefreshSession_iframe_calls
                          config extraCustomParams world fuel o _ Hflow Hrun Hin)).
Qed.


End ForceRefreshSession.

(** Given the configuration, the strategy retries the stalled renewal
    three times, 1000, 2000 and 3000 ms after the timeouts, and gives up
    at the fourth timeout. *)
Example timeoutRetryStrategy_given_config_schedule :
  exists o,
    Rx.retryWhen (timeoutRetryStrategy (Some sampleConfig))
      (fun k =>
         renewalUnderTimeout
           (startRefreshSession sampleFlowHelper sampleConfig None ∅)
           5000 (attempt stalledWorld k))
      5 = Some o /\
    timersOf (Rx.calls o) = [1000; 2000; 3000] /\
    List.filter isFlagWrite (Rx.calls o) =
      [SetSilentRenewRunning "a"; ResetSilentRenewRunning "a";
       SetSilentRenewRunning "a"; ResetSilentRenewRunning "a";
       SetSilentRenewRunning "a"; ResetSilentRenewRunning "a";
       SetSilentRenewRunning "a"] /\
    Rx.settle o = Rx.At 26000 (Rx.Error (ErrorOf TimeoutError)).
Proof. eexists. split; [vm_compute; reflexivity|]. by vm_compute. Qed.

(** C1 (the code departs from the specification).  [forceRefreshSession] passes
    [this.timeoutRetryStrategy.bind(this)] to [retryWhen], which calls it
    with the stream of errors alone; [config] is undefined and the
    destructuring throws.  With the renewal stalled, the first timeout at
    5000 ms therefore surfaces as a [TypeError]: the flag set at 10 ms is
    not cleared, no timer is started and nothing is retried. *)
Theorem forceRefreshSession_timeout_not_retried :
  exists o,
    forceRefreshSession sampleFlowHelper sampleConfig None stalledWorld 5 = Some o /\
    Rx.actions o =
      [(0, Log Debug "a" "Checking: silentRenewRunning: false");
       (0, GetAuthWellKnownEndPoints "https://idp/.well-known/openid-configuration" "a");
       (0, SubscribeIFrameCompleted);
       (10, SetSilentRenewRunning "a");
       (10, RefreshSessionWithIframe "a" None)] /\
    Rx.settle o =
      Rx.At 5000
        (Rx.Error
           (TypeError
              "Cannot destructure property 'configId' of 'config' as it is undefined.")) /\
    timersOf (Rx.calls o) = [] /\
    isSilentRenewRunning sampleConfig (Rx.flagsAfter o ∅) = true.
Proof. eexists. split; [vm_compute; reflexivity|]. by vm_compute. Qed.

(** ** The properties on the sample inputs *)

(** C2 as the specification has it does not hold: on [failingWorld] the error of
    the iframe renewal reaches the caller 30 ms after the call while the
    flag, set at 10 ms, is still set. *)
Lemma flag_left_set_when_error_surfaces :
  ~ flagClearWhenErrorSurfaces sampleFlowHelper sampleConfig None failingWorld.
Proof.
  intros Hguarantee.
  assert (Hrun : exists o e,
    forceRefreshSession sampleFlowHelper sampleConfig None failingWorld 5 = Some o /\
    Rx.settle o = Rx.At 30 (Rx.Error e) /\
    isSilentRenewRunning sampleConfig
      (Rx.flagsAfter o (silentRenewRunning failingWorld)) = true).
  { eexists. eexists. split; [vm_compute; reflexivity|]. by vm_compute. }
  destruct Hrun as (o & e & Hrun & Hsettle & Hflag).
  rewrite (Hguarantee _ _ _ _ Hrun Hsettle) in Hflag. discriminate.
Qed.

Lemma forceRefreshSession_error_keeps_flag_witness :
  exists o e,
    forceRefreshSession sampleFlowHelper sampleConfig None failingWorld 5 = Some o /\
    Rx.settle o = Rx.At 30 (Rx.Error e) /\
    (forall id, ResetSilentRenewRunning id ∉ Rx.calls o) /\
    isSilentRenewRunning sampleConfig
      (Rx.flagsAfter o (silentRenewRunning failingWorld)) = true.
Proof.
  destruct (forceRefreshSession_error_keeps_flag
              sampleFlowHelper sampleConfig None failingWorld 5)
    as (_ & Hgeneral & Hscenario).
  destruct (Hgeneral eq_refl 30 (Thrown "iframe failed") eq_refl eq_refl)
    as (o & e & Hrun & Hsettle & Hno_reset & _).
  destruct (Hscenario 10 sampleMetadata 20 (Thrown "iframe failed")
              eq_refl eq_refl eq_refl eq_refl eq_refl)
    as (o' & e' & Hrun' & _ & Hflag).
  { intros _. split; [by left | reflexivity]. }
  exists o, e. split; [exact Hrun|]. split; [exact Hsettle|].
  split; [exact Hno_reset|].
  rewrite Hrun in Hrun'. injection Hrun' as <-. exact Hflag.
Defined.

Lemma codeFlowCodeRequest_retry_policy_witness :
  exists o,
    codeFlowCodeRequest sampleBody sampleContext sampleConfig sampleCodeWorld 2
      = Some o /\
    Rx.settle o = Rx.At 3130 (Rx.Next (withAuthResult sampleContext sampleAnswer)) /\
    timersOf (Rx.calls o) = [3000].
Proof.
  destruct (codeFlowCodeRequest_retry_policy
              sampleBody sampleContext sampleConfig sampleCodeWorld
              "https://idp/token" eq_refl eq_refl eq_refl)
    as [Hanswered _].
  destruct (Hanswered 1%nat 80 sampleAnswer) with (fuel := 2%nat)
    as (o & Hrun & Hsettle & Hcalls).
  - intros k Hk. destruct k; [|lia]. eexists _, _. split; reflexivity.
  - reflexivity.
  - lia.
  - exists o. split; [exact Hrun|]. split; [exact Hsettle|].
    rewrite Hcalls. reflexivity.
Defined.

Lemma codeFlowCallback_outcome_witness :
  Rx.settle (codeFlowCallback sampleUrlParameter sampleReturnUrl sampleConfig) =
  Rx.At 0 (Rx.Next {|
    code := Some "c0de";
    refreshToken := None;
    state := Some "st4te";
    sessionState := Some "s3ssion";
    authResult := None;
    isRenewProcess := false;
    jwtKeys := None;
    validationResult := None;
    existingIdToken := None;
  |}).
Proof.
  destruct (codeFlowCallback_outcome sampleUrlParameter sampleReturnUrl sampleConfig)
    as (_ & _ & Hboth & _).
  exact (Hboth eq_refl eq_refl).
Defined.

Lemma codeFlowCodeRequest_guards_witness :
  exists o,
    codeFlowCodeRequest sampleBody sampleContext sampleConfig forgedCodeWorld 2
      = Some o /\
    Rx.settle o = Rx.At 0 (Rx.Error (ErrorMsg "codeFlowCodeRequest incorrect state")) /\
    Rx.calls o = [GetAuthStateControl "a"].
Proof.
  destruct (codeFlowCodeRequest_guards
              sampleBody sampleContext sampleConfig forgedCodeWorld 2)
    as [Hmismatch _].
  destruct Hmismatch as (o & Hrun & Hsettle & Hcalls & _); [discriminate|].
  exists o. split; [exact Hrun|]. split; [exact Hsettle|exact Hcalls].
Defined.

Lemma authenticatedImplicitFlowCallback_failure_witness :
  Rx.settle
    (authenticatedImplicitFlowCallback sampleConfig [sampleConfig] None
       sampleImplicitWorld)
  = Rx.At 40 (Rx.Error (ErrorOf (Thrown "invalid token"))) /\
  isSilentRenewRunning sampleConfig
    (Rx.flagsAfter
       (authenticatedImplicitFlowCallback sampleConfig [sampleConfig] None
          sampleImplicitWorld)
       ∅) = false.
Proof.
  destruct (authenticatedImplicitFlowCallback_failure
              sampleConfig [sampleConfig] None sampleImplicitWorld
              40 (Thrown "invalid token") eq_refl)
    as (Hsettle & _ & Hflag).
  split; [exact Hsettle|exact Hflag].
Defined.

Lemma startRefreshSession_gate_witness :
  Rx.actions
    (cold (startRefreshSession sampleFlowHelper sampleConfig None ∅)
       (attempt renewingWorld 0%nat)) =
  [(0, GetAuthWellKnownEndPoints "https://idp/.well-known/openid-configuration" "a");
   (10, SetSilentRenewRunning "a");
   (10, RefreshSessionWithIframe "a" None)].
Proof.
  destruct (startRefreshSession_gate sampleFlowHelper sampleConfig None ∅)
    as (_ & _ & Hopen).
  destruct (Hopen eq_refl eq_refl) as [_ Hcold].
  destruct (Hcold (attempt renewingWorld 0%nat)) as [Hfetched _].
  destruct (Hfetched 10 sampleMetadata eq_refl) as [Hactions _].
  exact Hactions.
Defined.

Lemma forceRefreshSession_refresh_tokens_witness :
  exists o,
    forceRefreshSession sampleFlowHelper sampleRefreshConfig None renewingWorld 1
      = Some o /\
    Rx.settle o =
      Rx.At 30 (Rx.Next (Some {|
        idToken := Some "stored-id-token";
        accessToken := Some "stored-access-token";
        userData := Some {[ "sub" := Some "alice" ]};
        isAuthenticated := true;
        loginConfigId := "a";
      |})).
Proof.
  destruct (forceRefreshSession_refresh_tokens
              sampleFlowHelper sampleRefreshConfig None renewingWorld 1 eq_refl)
    as (o & Hrun & _ & Hemits & _).
  exists o. split; [exact Hrun|].
  exact (Hemits 30 (RenewContext sampleContext) eq_refl).
Defined.


Lemma forceRefreshSession_custom_params_witness :
  exists o,
    forceRefreshSession sampleFlowHelper sampleRefreshConfig sampleExtraParams
      renewingWorld 1 = Some o /\
    RefreshSessionWithRefreshTokens "a"
      (Some (spread (customParamsRefreshTokenRequest sampleRefreshConfig)
               sampleExtraParams))
      ∈ Rx.calls o /\
    spread (customParamsRefreshTokenRequest sampleRefreshConfig) sampleExtraParams
      !! "scope" = Some (PString "caller").
Proof.
  destruct (forceRefreshSession_custom_params
              sampleFlowHelper sampleRefreshConfig sampleExtraParams renewingWorld 1)
    as (Hlookup & _ & Hdispatched).
  destruct (Hdispatched 10 sampleMetadata eq_refl eq_refl eq_refl) as [Hrefresh _].
  destruct (Hrefresh eq_refl) as (o & Hrun & Hin).
  exists o. split; [exact Hrun|]. split; [exact Hin|].
  rewrite Hlookup. reflexivity.
Defined.

(** * Further properties *)

(** ** The implicit-flow callback, beyond its failure *)

(** X1.  When the delegated processing emits a context,
    [authenticatedImplicitFlowCallback] emits the same context at the
    same time; the one call it adds is the navigation to [postLoginRoute],
    made exactly when [triggerAuthorizationResultEvent] is off and the
    emitted context is not a renewal.  The flag read at the call plays no
    part, and the service writes no flag: the flag store is as the
    delegate left it. *)
Theorem authenticatedImplicitFlowCallback_success (config : OpenIdConfiguration)
    (allConfigs : list OpenIdConfiguration) (hash : option string)
    (world : ImplicitWorld) (t : N) (callbackContext : CallbackContext) :
  let delegate := processImplicitFlowCallback world config allConfigs hash in
  let result := authenticatedImplicitFlowCallback config allConfigs hash world in
  Rx.settle delegate = Rx.At t (Rx.Next callbackContext) ->
  Rx.settle result = Rx.At t (Rx.Next callbackContext) /\
  Rx.actions result =
    (0, ProcessImplicitFlowCallback (configId config) hash)
    :: Rx.actions delegate
    ++ (if negb (triggerAuthorizationResultEvent config)
           && negb (isRenewProcess callbackContext)
        then [(t, NavigateByUrl (postLoginRoute config))] else []) /\
  Rx.flagsAfter result (flagsAtCall world) =
    foldl applyAction (flagsAtCall world) (Rx.calls delegate).
Proof.
  intros delegate result Hemits.
  assert (Hresult : result =
    Rx.mkObs
      ((0, ProcessImplicitFlowCallback (configId config) hash)
       :: Rx.actions delegate
       ++ (if negb (triggerAuthorizationResultEvent config)
              && negb (isRenewProcess callbackContext)
           then [(t, NavigateByUrl (postLoginRoute config))] else []))
      (Rx.At t (Rx.Next callbackContext))).
  { subst result. unfold authenticatedImplicitFlowCallback.
    unfold Rx.tap, Rx.switchMap, Rx.catchError. simpl.
    fold delegate. rewrite Hemits. simpl. unfold Context.isRenewProcess.
    rewrite N.add_0_r. f_equal. f_equal. f_equal.
    destruct (negb (triggerAuthorizationResultEvent config)
              && negb (isRenewProcess callbackContext)); simpl;
      by rewrite ?N.add_0_r. }
  rewrite Hresult. split; [done|]. split; [done|].
  unfold Rx.flagsAfter, Rx.calls. simpl.
  rewrite List.map_app, foldl_app.
  by destruct (negb (triggerAuthorizationResultEvent config)
               && negb (isRenewProcess callbackContext)).
Qed.

(** X2.  Whatever the delegated processing does,
    [authenticatedImplicitFlowCallback] makes its calls after those of the
    delegate, and with [triggerAuthorizationResultEvent] on none of them
    is a navigation.  While the delegate has not settled, or when it
    completes without a context, the service adds no call and settles as
    the delegate does. *)
Theorem authenticatedImplicitFlowCallback_event_mode (config : OpenIdConfiguration)
    (allConfigs : list OpenIdConfiguration) (hash : option string)
    (world : ImplicitWorld) :
  let delegate := processImplicitFlowCallback world config allConfigs hash in
  let result := authenticatedImplicitFlowCallback config allConfigs hash world in
  exists added,
    Rx.actions result =
      (0, ProcessImplicitFlowCallback (configId config) hash)
      :: Rx.actions delegate ++ added /\
    (triggerAuthorizationResultEvent config = true ->
     forall t route, (t, NavigateByUrl route) ∉ added) /\
    ((Rx.settle delegate = Rx.Never \/
      exists t, Rx.settle delegate = Rx.At t Rx.Complete) ->
     added = [] /\ Rx.settle result = Rx.settle delegate).
Proof.
  intros delegate result. subst result.
  unfold authenticatedImplicitFlowCallback.
  unfold Rx.tap, Rx.switchMap, Rx.catchError. simpl. fold delegate.
  destruct (Rx.settle delegate) as [t [callbackContext|e|]|] eqn:Hdelegate; simpl.
  - eexists. split; [reflexivity|]. split.
    + intros ->. simpl. intros u route. apply not_elem_of_nil.
    + intros [Hnever|[u Hcomplete]]; discriminate.
  - eexists. split; [reflexivity|]. split.
    + intros ->. simpl. intros u route.
      rewrite !elem_of_cons, elem_of_nil. intros [?|[?|[]]]; discriminate.
    + intros [Hnever|[u Hcomplete]]; discriminate.
  - exists []. split; [by rewrite app_nil_r|]. split; [|done].
    intros _ u route. apply not_elem_of_nil.
  - exists []. split; [by rewrite app_nil_r|]. split; [|done].
    intros _ u route. apply not_elem_of_nil.
Qed.

(** ** The code-for-token exchange, on every run *)

(** What a retried exchange can do, emit and fail with, however many
    subscriptions it takes. *)
Lemma retryLoop_exchange_inv (callbackContext : CallbackContext)
    (config : OpenIdConfiguration) (request : Action)
    (post : nat -> Rx.Settle JsObject) (fuel : nat) :
  forall i o,
    Rx.retryLoop (handleRefreshRetry config) (exchange callbackContext request post)
      fuel i = Some o ->
    Forall
      (fun a =>
         a = request \/
         a = logWarning config
               ("OidcService code request " +:+ authority config
                +:+ " - no internet connection") \/
         a = Timer (refreshTokenRetryInSeconds config * 1000))
      (Rx.calls o) /\
    (forall t c,
       Rx.settle o = Rx.At t (Rx.Next c) ->
       exists k t' response,
         post k = Rx.At t' (Rx.Next response) /\
         c = withAuthResult callbackContext response) /\
    (forall t e,
       Rx.settle o = Rx.At t (Rx.Error e) ->
       exists k t' cause,
         post k = Rx.At t' (Rx.Error cause) /\
         isConnectivityLoss cause = false /\
         e = ErrorOf cause).
Proof.
  induction fuel as [|fuel IH]; intros i o Hrun; [discriminate|].
  cbn [Rx.retryLoop] in Hrun.
  assert (Hattempt : exchange callbackContext request post i =
    match post i with
    | Rx.At t (Rx.Next response) =>
        Rx.mkObs [(0, request)]
          (Rx.At t (Rx.Next (withAuthResult callbackContext response)))
    | Rx.At t (Rx.Error e) => Rx.mkObs [(0, request)] (Rx.At t (Rx.Error e))
    | Rx.At t Rx.Complete => Rx.mkObs [(0, request)] (Rx.At t Rx.Complete)
    | Rx.Never => Rx.mkObs [(0, request)] Rx.Never
    end).
  { unfold exchange, Rx.switchMap. simpl.
    destruct (post i) as [t [response|e|]|]; simpl; by rewrite ?N.add_0_r. }
  rewrite Hattempt in Hrun. clear Hattempt.
  destruct (post i) as [t [response|e|]|] eqn:Hpost; simpl in Hrun.
  - injection Hrun as <-. split; [|split].
    + unfold Rx.calls. simpl. repeat constructor.
    + intros u c [= _ <-]. by exists i, t, response.
    + discriminate.
  - unfold handleRefreshRetry in Hrun.
    destruct (isConnectivityLoss e) eqn:He; simpl in Hrun.
    + destruct (Rx.retryLoop _ _ fuel (S i)) as [rest|] eqn:Hrest; [|discriminate].
      injection Hrun as <-.
      destruct (IH _ _ Hrest) as (Hcalls & Hnext & Herror).
      split; [|split].
      * unfold Rx.calls. simpl.
        rewrite RxFacts.calls_shift.
        repeat (constructor; [tauto|]). exact Hcalls.
      * simpl. intros u c Hsettle. destruct (Rx.settle rest) as [v n|]; [|done].
        injection Hsettle as _ ->. by eapply Hnext.
      * simpl. intros u e' Hsettle. destruct (Rx.settle rest) as [v n|]; [|done].
        injection Hsettle as _ ->. by eapply Herror.
    + injection Hrun as <-. split; [|split].
      * unfold Rx.calls. simpl. repeat constructor.
      * discriminate.
      * simpl. intros u e' [= _ <-]. by exists i, t, e.
  - injection Hrun as <-. split; [|split]; [|discriminate..].
    unfold Rx.calls. simpl. repeat constructor.
  - injection Hrun as <-. split; [|split]; [|discriminate..].
    unfold Rx.calls. simpl. repeat constructor.
Qed.

(** A run of calls that are no flag writes leaves the flag store alone. *)
Lemma foldl_no_flag_write (l : list Action) (flags : Flags) :
  Forall (fun a => isFlagWrite a = false) l ->
  foldl applyAction flags l = flags.
Proof.
  revert flags. induction l as [|a l IH]; intros flags Hl; [done|].
  inversion Hl as [|? ? Ha Hrest]; subst. simpl.
  rewrite IH by done. by destruct a.
Qed.

Section CodeFlowCodeRequestRuns.

Variable createBodyForCodeFlowCodeRequest :
  option string -> OpenIdConfiguration -> option Params -> string.

(** [codeFlowCodeRequest] by its two guards. *)
Lemma codeFlowCodeRequest_cases (callbackContext : CallbackContext)
    (config : OpenIdConfiguration) (world : CodeRequestWorld) (fuel : nat) :
  let endpoint := authWellKnownEndPoints world ≫= tokenEndpoint in
  let reads :=
    [GetAuthStateControl (configId config);
     StorageRead "authWellKnownEndPoints" (configId config)] in
  let request :=
    HttpPost (default "" endpoint)
      (createBodyForCodeFlowCodeRequest
         (code callbackContext) config (customParamsCodeRequest config))
      (configId config)
      [("Content-Type", "application/x-www-form-urlencoded")] in
  let tagged := "OidcService code request " +:+ authority config in
  codeFlowCodeRequest createBodyForCodeFlowCodeRequest
    callbackContext config world fuel =
  if negb (bool_decide (state callbackContext = authStateControl world)) then
    Some (Rx.doing [GetAuthStateControl (configId config)]
            (Rx.throwError (ErrorMsg "codeFlowCodeRequest incorrect state")))
  else if negb (truthy endpoint) then
    Some (Rx.doing reads (Rx.throwError (ErrorMsg "Token Endpoint not defined")))
  else
    Rx.doing reads
      <$> (Rx.catchError
             (fun _ => Rx.doing [logError config tagged] (Rx.throwError (ErrorMsg tagged)))
             <$> Rx.retryLoop (handleRefreshRetry config)
                   (exchange callbackContext request (post world)) fuel 0%nat).
Proof. reflexivity. Qed.

(** X3.  An error that [codeFlowCodeRequest] surfaces is one of three:
    'codeFlowCodeRequest incorrect state', and then the stored value
    differs from the state of the context; 'Token Endpoint not defined',
    and then no token endpoint is cached; or 'OidcService code request'
    with the authority, and then some POST failed otherwise than for want
    of connectivity.  The error of the transport itself never reaches the
    caller. *)
Theorem codeFlowCodeRequest_surfaced_errors (callbackContext : CallbackContext)
    (config : OpenIdConfiguration) (world : CodeRequestWorld) (fuel : nat)
    (o : Rx.Obs CallbackContext) (t : N) (e : JsError) :
  codeFlowCodeRequest createBodyForCodeFlowCodeRequest
    callbackContext config world fuel = Some o ->
  Rx.settle o = Rx.At t (Rx.Error e) ->
  (e = ErrorMsg "codeFlowCodeRequest incorrect state" /\
   state callbackContext <> authStateControl world) \/
  (e = ErrorMsg "Token Endpoint not defined" /\
   state callbackContext = authStateControl world /\
   truthy (authWellKnownEndPoints world ≫= tokenEndpoint) = false) \/
  (e = ErrorMsg ("OidcService code request " +:+ authority config) /\
   exists k t' cause,
     post world k = Rx.At t' (Rx.Error cause) /\
     isConnectivityLoss cause = false).
Proof.
  rewrite codeFlowCodeRequest_cases. cbv zeta.
  destruct (bool_decide_reflect (state callbackContext = authStateControl world))
    as [Hstate|Hstate]; simpl.
  - destruct (truthy (authWellKnownEndPoints world ≫= tokenEndpoint)) eqn:Hendpoint;
      simpl.
    + destruct (Rx.retryLoop _ _ fuel 0%nat) as [retried|] eqn:Hloop; [|discriminate].
      simpl. intros [= <-]. rewrite RxFacts.settle_doing.
      destruct (retryLoop_exchange_inv _ _ _ _ _ _ _ Hloop) as (_ & _ & Herror).
      unfold Rx.catchError.
      destruct (Rx.settle retried) as [u [c|cause|]|] eqn:Hsettled; simpl;
        rewrite ?Hsettled; try discriminate.
      intros [= _ <-]. right. right. split; [done|].
      destruct (Herror u cause eq_refl) as (k & t' & cause' & Hpost & Hloss & _).
      by exists k, t', cause'.
    + intros [= <-]. simpl. intros [= _ <-]. right. left. done.
  - intros [= <-]. simpl. intros [= _ <-]. by left.
Qed.

(** X4.  A context that [codeFlowCodeRequest] emits is the context it was
    given with the answer of some POST as [authResult]: the stored value
    equalled the state, a token endpoint was cached, all other members
    are unchanged, and in [authResult] the members [state] and
    [session_state] are those of the context (whatever the answer had
    there) while every other member is that of the answer. *)
Theorem codeFlowCodeRequest_emitted_context (callbackContext : CallbackContext)
    (config : OpenIdConfiguration) (world : CodeRequestWorld) (fuel : nat)
    (o : Rx.Obs CallbackContext) (t : N) (emitted : CallbackContext) :
  codeFlowCodeRequest createBodyForCodeFlowCodeRequest
    callbackContext config world fuel = Some o ->
  Rx.settle o = Rx.At t (Rx.Next emitted) ->
  state callbackContext = authStateControl world /\
  truthy (authWellKnownEndPoints world ≫= tokenEndpoint) = true /\
  exists k t' response result,
    post world k = Rx.At t' (Rx.Next response) /\
    authResult emitted = Some result /\
    member "state" result = state callbackContext /\
    member "session_state" result = sessionState callbackContext /\
    (forall key, key <> "state" -> key <> "session_state" ->
       result !! key = response !! key) /\
    code emitted = code callbackContext /\
    refreshToken emitted = refreshToken callbackContext /\
    state emitted = state callbackContext /\
    sessionState emitted = sessionState callbackContext /\
    isRenewProcess emitted = isRenewProcess callbackContext /\
    jwtKeys emitted = jwtKeys callbackContext /\
    validationResult emitted = validationResult callbackContext /\
    existingIdToken emitted = existingIdToken callbackContext.
Proof.
  rewrite codeFlowCodeRequest_cases. cbv zeta.
  destruct (bool_decide_reflect (state callbackContext = authStateControl world))
    as [Hstate|Hstate]; simpl; [|by intros [= <-]].
  destruct (truthy (authWellKnownEndPoints world ≫= tokenEndpoint)) eqn:Hendpoint;
    simpl; [|by intros [= <-]].
  destruct (Rx.retryLoop _ _ fuel 0%nat) as [retried|] eqn:Hloop; [|discriminate].
  simpl. intros [= <-]. rewrite RxFacts.settle_doing.
  destruct (retryLoop_exchange_inv _ _ _ _ _ _ _ Hloop) as (_ & Hnext & _).
  unfold Rx.catchError.
  destruct (Rx.settle retried) as [u [c|cause|]|] eqn:Hsettled; simpl;
    rewrite ?Hsettled; try discriminate.
  intros [= _ <-]. split; [done|]. split; [done|].
  destruct (Hnext u c eq_refl) as (k & t' & response & Hpost & ->).
  exists k, t', response. eexists. split; [done|]. split; [reflexivity|].
  unfold member. repeat split.
  - rewrite lookup_insert_ne by done. by rewrite lookup_insert_eq.
  - by rewrite lookup_insert_eq.
  - intros key Hstate' Hsession. by rewrite !lookup_insert_ne.
Qed.

(** The calls [codeFlowCodeRequest] can make. *)
Lemma codeFlowCodeRequest_calls_allowed (callbackContext : CallbackContext)
    (config : OpenIdConfiguration) (world : CodeRequestWorld) (fuel : nat)
    (o : Rx.Obs CallbackContext) :
  codeFlowCodeRequest createBodyForCodeFlowCodeRequest
    callbackContext config world fuel = Some o ->
  Forall
    (fun a =>
       a ∈ [GetAuthStateControl (configId config);
            StorageRead "authWellKnownEndPoints" (configId config);
            HttpPost (default "" (authWellKnownEndPoints world ≫= tokenEndpoint))
              (createBodyForCodeFlowCodeRequest
                 (code callbackContext) config (customParamsCodeRequest config))
              (configId config)
              [("Content-Type", "application/x-www-form-urlencoded")];
            logWarning config
              ("OidcService code request " +:+ authority config
               +:+ " - no internet connection");
            Timer (refreshTokenRetryInSeconds config * 1000);
            logError config ("OidcService code request " +:+ authority config)])
    (Rx.calls o).
Proof.
  set (allowed := [_; _; _; _; _; _]).
  rewrite codeFlowCodeRequest_cases. cbv zeta.
  destruct (negb (bool_decide _)); simpl.
  { intros [= <-]. unfold Rx.calls. simpl.
    subst allowed. repeat constructor. }
  destruct (negb (truthy _)); simpl.
  { intros [= <-]. unfold Rx.calls. simpl.
    subst allowed. repeat constructor. }
  destruct (Rx.retryLoop _ _ fuel 0%nat) as [retried|] eqn:Hloop; [|discriminate].
  simpl. intros [= <-].
  destruct (retryLoop_exchange_inv _ _ _ _ _ _ _ Hloop) as (Hretried & _ & _).
  rewrite RxFacts.calls_doing.
  apply Forall_app. split.
  { subst allowed. repeat constructor. }
  assert (Hinner : Forall (fun a => a ∈ allowed) (Rx.calls retried)).
  { eapply Forall_impl; [exact Hretried|].
    intros a [->|[->| ->]]; subst allowed; repeat constructor. }
  unfold Rx.catchError.
  destruct (Rx.settle retried) as [u [c|cause|]|]; try done.
  unfold Rx.calls. simpl. rewrite List.map_app. apply Forall_app.
  split; [exact Hinner|]. simpl.
  subst allowed. repeat constructor.
Qed.

(** X5.  Every call of [codeFlowCodeRequest] is the read of the stored
    anti-forgery value, the read of the cached metadata, a POST to the
    cached token endpoint with the body of the code request and the
    form-encoded content type, the connectivity warning, a timer of
    [refreshTokenRetryInSeconds * 1000] ms, or the log of the surfaced
    error.  It writes no flag: the flag store is as it was. *)
Theorem codeFlowCodeRequest_calls (callbackContext : CallbackContext)
    (config : OpenIdConfiguration) (world : CodeRequestWorld) (fuel : nat)
    (o : Rx.Obs CallbackContext) :
  codeFlowCodeRequest createBodyForCodeFlowCodeRequest
    callbackContext config world fuel = Some o ->
  Forall
    (fun a =>
       a ∈ [GetAuthStateControl (configId config);
            StorageRead "authWellKnownEndPoints" (configId config);
            HttpPost (default "" (authWellKnownEndPoints world ≫= tokenEndpoint))
              (createBodyForCodeFlowCodeRequest
                 (code callbackContext) config (customParamsCodeRequest config))
              (configId config)
              [("Content-Type", "application/x-www-form-urlencoded")];
            logWarning config
              ("OidcService code request " +:+ authority config
               +:+ " - no internet connection");
            Timer (refreshTokenRetryInSeconds config * 1000);
            logError config ("OidcService code request " +:+ authority config)])
    (Rx.calls o) /\
  forall flags, Rx.flagsAfter o flags = flags.
Proof.
  intros Hrun.
  assert (Hcalls := codeFlowCodeRequest_calls_allowed _ _ _ _ _ Hrun).
  split; [exact Hcalls|].
  intros flags. unfold Rx.flagsAfter. apply foldl_no_flag_write.
  eapply Forall_impl; [exact Hcalls|].
  intros a Ha.
  rewrite !elem_of_cons, elem_of_nil in Ha.
  destruct Ha as [->|[->|[->|[->|[->|[->|[]]]]]]]; done.
Qed.

End CodeFlowCodeRequestRuns.

(** ** The two steps of the code flow together *)

Section CodeFlow.

Variable getUrlParameter : string -> string -> option string.
Variable createBodyForCodeFlowCodeRequest :
  option string -> OpenIdConfiguration -> option Params -> string.

(** X6.  When the context that [codeFlowCallback] emits for a return URL
    is given to [codeFlowCodeRequest] and a call reaches the network, the
    URL had a [state] that is not empty and is the stored anti-forgery
    value, it had a [code] that is not empty, and every such call is the
    POST of that [code] to the cached token endpoint. *)
Theorem codeFlow_posts_only_for_stored_state (urlToCheck : string)
    (config : OpenIdConfiguration) (world : CodeRequestWorld) (fuel : nat)
    (t : N) (callbackContext : CallbackContext) (o : Rx.Obs CallbackContext) :
  Rx.settle (codeFlowCallback getUrlParameter urlToCheck config)
    = Rx.At t (Rx.Next callbackContext) ->
  codeFlowCodeRequest createBodyForCodeFlowCodeRequest
    callbackContext config world fuel = Some o ->
  (exists a, a ∈ Rx.calls o /\ isNetworkCall a = true) ->
  truthy (getUrlParameter urlToCheck "state") = true /\
  truthy (getUrlParameter urlToCheck "code") = true /\
  authStateControl world = getUrlParameter urlToCheck "state" /\
  forall a,
    a ∈ Rx.calls o -> isNetworkCall a = true ->
    a = HttpPost (default "" (authWellKnownEndPoints world ≫= tokenEndpoint))
          (createBodyForCodeFlowCodeRequest
             (getUrlParameter urlToCheck "code") config (customParamsCodeRequest config))
          (configId config)
          [("Content-Type", "application/x-www-form-urlencoded")].
Proof.
  intros Hcallback Hrun (a & Ha & Hnetwork).
  unfold codeFlowCallback in Hcallback.
  destruct (truthy (getUrlParameter urlToCheck "state")) eqn:Hstate;
    [|discriminate].
  destruct (truthy (getUrlParameter urlToCheck "code")) eqn:Hcode;
    [|discriminate].
  simpl in Hcallback. injection Hcallback as _ <-.
  assert (Hallowed := codeFlowCodeRequest_calls_allowed _ _ _ _ _ _ Hrun).
  rewrite Forall_forall in Hallowed. simpl in Hallowed.
  split; [done|]. split; [done|]. split.
  - rewrite codeFlowCodeRequest_cases in Hrun. cbv zeta in Hrun. simpl in Hrun.
    destruct (bool_decide_reflect
                (getUrlParameter urlToCheck "state" = authStateControl world))
      as [Heq|Hneq]; [done|].
    simpl in Hrun. injection Hrun as <-.
    unfold Rx.calls in Ha. simpl in Ha.
    apply list_elem_of_singleton in Ha. subst a. discriminate.
  - intros a' Ha' Hnetwork'.
    specialize (Hallowed a' Ha').
    rewrite !elem_of_cons, elem_of_nil in Hallowed.
    destruct Hallowed as [->|[->|[->|[->|[->|[->|[]]]]]]]; done.
Qed.

End CodeFlow.

(** ** Forcing a renewal, further *)

(** Calls that write the flag of one configuration only leave the flags
    of the others as they were. *)
Lemma foldl_flags_of_others (id0 id : string) (l : list Action) (flags : Flags) :
  (forall a id', a ∈ l ->
     a = SetSilentRenewRunning id' \/ a = ResetSilentRenewRunning id' -> id' = id0) ->
  id <> id0 ->
  id ∈ foldl applyAction flags l <-> id ∈ flags.
Proof.
  intros Hown Hother. revert flags Hown.
  induction l as [|a l IH]; intros flags Hown; [done|].
  simpl. rewrite IH; last first.
  { intros a' id' Hin. apply Hown. by right. }
  destruct a; simpl; try done.
  - assert (configId0 = id0) as -> by (eapply Hown; [by left|by left]).
    unfold setSilentRenewRunning. rewrite elem_of_union, elem_of_singleton. tauto.
  - assert (configId0 = id0) as -> by (eapply Hown; [by left|by right]).
    unfold resetSilentRenewRunning. rewrite elem_of_difference, elem_of_singleton. tauto.
Qed.

Section ForceRefreshSessionFurther.

Variable isCurrentFlowCodeFlowWithRefreshTokens : OpenIdConfiguration -> bool.

(** Every flag write of [forceRefreshSession] is on the flag of its own
    configuration. *)
Lemma forceRefreshSession_flag_writes (config : OpenIdConfiguration)
    (extraCustomParams : option Params) (world : RefreshWorld) (fuel : nat)
    (o : Rx.Obs (option LoginResponse)) (a : Action) (id : string) :
  forceRefreshSession isCurrentFlowCodeFlowWithRefreshTokens
    config extraCustomParams world fuel = Some o ->
  a ∈ Rx.calls o ->
  a = SetSilentRenewRunning id \/ a = ResetSilentRenewRunning id ->
  id = configId config.
Proof.
  intros Hrun Hin Hwrite.
  assert (Hstart : forall extra,
    a ∈ eager (startRefreshSession isCurrentFlowCodeFlowWithRefreshTokens
                 config extra (silentRenewRunning world)) \/
    a ∈ Rx.calls (cold (startRefreshSession isCurrentFlowCodeFlowWithRefreshTokens
                          config extra (silentRenewRunning world))
                    (attempt world 0%nat)) \/
    a = SubscribeIFrameCompleted ->
    id = configId config).
  { intros extra [Ha|[Ha|Ha]].
    - apply startRefreshSession_eager in Ha as (? & ? & ->).
      by destruct Hwrite.
    - apply startRefreshSession_calls in Ha.
      destruct Ha as [->|[->|[[_ ->]|[_ ->]]]]; destruct Hwrite; congruence.
    - subst a. by destruct Hwrite. }
  destruct (isCurrentFlowCodeFlowWithRefreshTokens config) eqn:Hflow.
  - rewrite (forceRefreshSession_refresh _ _ _ _ _ Hflow) in Hrun.
    injection Hrun as <-.
    rewrite RxFacts.calls_doing, RxFacts.calls_map in Hin.
    apply elem_of_app in Hin as [Hin|Hin]; eapply Hstart; eauto.
  - eapply Hstart.
    exact (forceRefreshSession_iframe_calls _ _ _ _ _ _ _ Hflow Hrun Hin).
Qed.

(** X8.  [forceRefreshSession] leaves the flags of the other
    configurations alone: after any run the flag of a configuration
    other than the one renewed is set exactly when it was set before. *)
Theorem forceRefreshSession_other_configurations (config : OpenIdConfiguration)
    (extraCustomParams : option Params) (world : RefreshWorld) (fuel : nat)
    (o : Rx.Obs (option LoginResponse)) (other : string) :
  forceRefreshSession isCurrentFlowCodeFlowWithRefreshTokens
    config extraCustomParams world fuel = Some o ->
  other <> configId config ->
  other ∈ Rx.flagsAfter o (silentRenewRunning world) <->
  other ∈ silentRenewRunning world.
Proof.
  intros Hrun Hother. unfold Rx.flagsAfter.
  apply (foldl_flags_of_others (configId config)); [|done].
  intros a id Hin Hwrite.
  by apply (forceRefreshSession_flag_writes
              config extraCustomParams world fuel o a id).
Qed.

(** X7.  [userForceRefreshSession] first writes the caller's extra
    parameters, as they came, under 'storageCustomParamsRefresh' when the
    configuration uses refresh tokens and under
    'storageCustomParamsAuthRequest' when it does not, and writes nothing
    when none are given; then it does what [forceRefreshSession] does:
    the same calls after the write, the same outcome, the same flags. *)
Theorem userForceRefreshSession_persists (config : OpenIdConfiguration)
    (extraCustomParams : option Params) (world : RefreshWorld) (fuel : nat)
    (o' : Rx.Obs (option LoginResponse)) :
  userForceRefreshSession isCurrentFlowCodeFlowWithRefreshTokens
    config extraCustomParams world fuel = Some o' ->
  exists o,
    forceRefreshSession isCurrentFlowCodeFlowWithRefreshTokens
      config extraCustomParams world fuel = Some o /\
    Rx.calls o' =
      match extraCustomParams with
      | Some params =>
          [StorageWrite
             (if useRefreshToken config
              then "storageCustomParamsRefresh"
              else "storageCustomParamsAuthRequest")
             params (configId config)]
      | None => []
      end ++ Rx.calls o /\
    Rx.settle o' = Rx.settle o /\
    forall flags, Rx.flagsAfter o' flags = Rx.flagsAfter o flags.
Proof.
  unfold userForceRefreshSession.
  destruct (forceRefreshSession _ _ _ _ _) as [o|]; [|discriminate].
  simpl. intros [= <-]. exists o. split; [done|].
  rewrite RxFacts.calls_doing. unfold Rx.flagsAfter.
  rewrite RxFacts.calls_doing. unfold persistCustomParams.
  destruct extraCustomParams as [params|]; simpl;
    [destruct (useRefreshToken config)|]; done.
Qed.

(** One subscription on the iframe path when both sources emit in time. *)
Lemma renewalUnderTimeout_joined (start : Call RenewResult) (timeOutTime : N)
    (collaborators : RenewAttempt) (ts tc : N) (result : RenewResult)
    (callbackContext : option CallbackContext) :
  Rx.settle (cold start collaborators) = Rx.At ts (Rx.Next result) ->
  refreshSessionWithIFrameCompleted collaborators
    = Rx.At tc (Rx.Next callbackContext) ->
  N.max ts tc < timeOutTime ->
  Rx.settle (renewalUnderTimeout start timeOutTime collaborators) =
    Rx.At (N.max ts tc) (Rx.Next (result, callbackContext)).
Proof.
  intros Hstarted Hcompleted Hearly.
  unfold renewalUnderTimeout, Rx.timeout, Rx.forkJoin, Rx.take1. simpl.
  rewrite Hstarted, Hcompleted. simpl.
  assert (Hin_time : (N.max ts tc <=? timeOutTime) = true)
    by (apply N.leb_le; lia).
  by rewrite Hin_time.
Qed.

(** X9.  On the iframe path the response takes its tokens from the
    [authResult] of the context the completed signal carried, not from
    the token store and not from what [startRefreshSession] emitted.  It
    is [null] when the stored tokens are not valid, whatever the signal
    carried; and when they are valid and the signal carried [null], or a
    context without [authResult], the response is authenticated and has
    neither token. *)
Theorem forceRefreshSession_iframe_response (config : OpenIdConfiguration)
    (extraCustomParams : option Params) (world : RefreshWorld) (fuel : nat)
    (ts tc : N) (result : RenewResult) (callbackContext : option CallbackContext) :
  isCurrentFlowCodeFlowWithRefreshTokens config = false ->
  Rx.settle
    (cold (startRefreshSession isCurrentFlowCodeFlowWithRefreshTokens
             config extraCustomParams (silentRenewRunning world))
       (attempt world 0%nat)) = Rx.At ts (Rx.Next result) ->
  refreshSessionWithIFrameCompleted (attempt world 0%nat)
    = Rx.At tc (Rx.Next callbackContext) ->
  N.max ts tc < silentRenewTimeoutInSeconds config * 1000 ->
  exists o,
    forceRefreshSession isCurrentFlowCodeFlowWithRefreshTokens
      config extraCustomParams world fuel = Some o /\
    Rx.settle o =
      Rx.At (N.max ts tc)
        (Rx.Next
           (if areAuthStorageTokensValid (stores world) then
              Some {|
                idToken := authResultMember "id_token" callbackContext;
                accessToken := authResultMember "access_token" callbackContext;
                userData := getUserDataFromStore (stores world);
                isAuthenticated := true;
                loginConfigId := configId config;
              |}
            else None)) /\
    (callbackContext = None \/
     (exists context, callbackContext = Some context /\ authResult context = None) ->
     authResultMember "id_token" callbackContext = None /\
     authResultMember "access_token" callbackContext = None).
Proof.
  intros Hflow Hstarted Hcompleted Hearly.
  destruct (forceRefreshSession_iframe_settle isCurrentFlowCodeFlowWithRefreshTokens
              config extraCustomParams world fuel Hflow)
    as (o & thrown & Hrun & Hsettle).
  cbv zeta in Hsettle.
  rewrite (renewalUnderTimeout_joined _ _ _ _ _ _ _ Hstarted Hcompleted Hearly)
    in Hsettle.
  exists o. split; [done|]. split.
  - rewrite Hsettle. unfold loginResponseOf.
    by destruct (areAuthStorageTokensValid (stores world)).
  - intros [->|(context & -> & Hnone)]; simpl; [done|]. by rewrite Hnone.
Qed.

(** X11.  A renewal that succeeds at its first subscription leaves the
    flag set: with the flag clear at the call and a well-known URL
    configured, once the metadata fetch and the renewal collaborator have
    emitted (and, on the iframe path, the completed signal has arrived in
    time) [forceRefreshSession] emits its result without having cleared
    the flag it set. *)
Theorem forceRefreshSession_success_keeps_flag (config : OpenIdConfiguration)
    (extraCustomParams : option Params) (world : RefreshWorld) (fuel : nat)
    (tw tr : N) (metadata : AuthWellKnownEndpoints) (result : RenewResult) :
  isSilentRenewRunning config (silentRenewRunning world) = false ->
  truthy (authWellknownEndpointUrl config) = true ->
  getAuthWellKnownEndPoints (attempt world 0%nat) = Rx.At tw (Rx.Next metadata) ->
  (if isCurrentFlowCodeFlowWithRefreshTokens config
   then refreshSessionWithRefreshTokens (attempt world 0%nat)
   else refreshSessionWithIframe (attempt world 0%nat)) = Rx.At tr (Rx.Next result) ->
  (isCurrentFlowCodeFlowWithRefreshTokens config = false ->
   exists tc callbackContext,
     refreshSessionWithIFrameCompleted (attempt world 0%nat)
       = Rx.At tc (Rx.Next callbackContext) /\
     N.max (tw + tr) tc < silentRenewTimeoutInSeconds config * 1000) ->
  exists o t response,
    forceRefreshSession isCurrentFlowCodeFlowWithRefreshTokens
      config extraCustomParams world fuel = Some o /\
    Rx.settle o = Rx.At t (Rx.Next response) /\
    tw + tr <= t /\
    isSilentRenewRunning config (Rx.flagsAfter o (silentRenewRunning world)) = true.
Proof.
  intros Hflag Hurl Hfetch Hrenewed Hiframe.
  assert (Hstarted := fun extra =>
    startRefreshSession_fetched isCurrentFlowCodeFlowWithRefreshTokens
      config extra (silentRenewRunning world)
      (attempt world 0%nat) tw metadata Hflag Hurl Hfetch).
  cbv zeta in Hstarted. rewrite Hrenewed in Hstarted. simpl in Hstarted.
  assert (Hset : forall o,
    forceRefreshSession isCurrentFlowCodeFlowWithRefreshTokens
      config extraCustomParams world fuel = Some o ->
    SetSilentRenewRunning (configId config) ∈ Rx.calls o ->
    isSilentRenewRunning config (Rx.flagsAfter o (silentRenewRunning world)) = true).
  { intros o Hrun Hin.
    unfold isSilentRenewRunning. apply bool_decide_eq_true_2.
    unfold Rx.flagsAfter. apply flag_set_and_not_reset; [done|].
    intros Hreset.
    assert (Hstart : forall extra a,
      a ∈ eager (startRefreshSession isCurrentFlowCodeFlowWithRefreshTokens
                   config extra (silentRenewRunning world)) \/
      a ∈ Rx.calls (cold (startRefreshSession isCurrentFlowCodeFlowWithRefreshTokens
                            config extra (silentRenewRunning world))
                      (attempt world 0%nat)) \/
      a = SubscribeIFrameCompleted ->
      a <> ResetSilentRenewRunning (configId config)).
    { intros extra a [Ha|[Ha| ->]]; [| |done].
      - apply startRefreshSession_eager in Ha as (? & ? & ->). done.
      - apply startRefreshSession_calls in Ha.
        destruct Ha as [->|[->|[[_ ->]|[_ ->]]]]; done. }
    destruct (isCurrentFlowCodeFlowWithRefreshTokens config) eqn:Hflow.
    - rewrite (forceRefreshSession_refresh _ _ _ _ _ Hflow) in Hrun.
      injection Hrun as <-.
      rewrite RxFacts.calls_doing, RxFacts.calls_map in Hreset.
      apply elem_of_app in Hreset as [Hreset|Hreset].
      + by apply (Hstart _ _ (or_introl Hreset)).
      + by apply (Hstart _ _ (or_intror (or_introl Hreset))).
    - by apply (Hstart _ _
                  (forceRefreshSession_iframe_calls _ _ _ _ _ _ _ Hflow Hrun Hreset)). }
  destruct (isCurrentFlowCodeFlowWithRefreshTokens config) eqn:Hflow.
  - destruct (Hstarted
                (Some (spread (customParamsRefreshTokenRequest config) extraCustomParams)))
      as [Hactions Hsettled].
    assert (Hrun := forceRefreshSession_refresh isCurrentFlowCodeFlowWithRefreshTokens
                      config extraCustomParams world fuel Hflow).
    cbv zeta in Hrun.
    eexists. exists (tw + tr). eexists. split; [exact Hrun|]. split; [|split].
    + by rewrite RxFacts.settle_doing, RxFacts.settle_map, Hsettled.
    + lia.
    + apply Hset; [exact Hrun|].
      rewrite RxFacts.calls_doing, RxFacts.calls_map.
      apply elem_of_app. right. unfold Rx.calls. rewrite Hactions. simpl.
      rewrite !elem_of_cons. tauto.
  - destruct (Hiframe eq_refl) as (tc & callbackContext & Hcompleted & Hearly).
    destruct (Hstarted extraCustomParams) as [Hactions Hsettled].
    destruct (forceRefreshSession_iframe_settle isCurrentFlowCodeFlowWithRefreshTokens
                config extraCustomParams world fuel Hflow)
      as (o & thrown & Hrun & Hsettle).
    cbv zeta in Hsettle.
    rewrite (renewalUnderTimeout_joined _ _ _ _ _ _ _ Hsettled Hcompleted Hearly)
      in Hsettle.
    exists o, (N.max (tw + tr) tc). eexists. split; [done|].
    split; [exact Hsettle|]. split; [lia|].
    apply Hset; [done|].
    destruct (forceRefreshSession_iframe_early_call
                isCurrentFlowCodeFlowWithRefreshTokens
                config extraCustomParams world fuel tw
                (SetSilentRenewRunning (configId config)) Hflow)
      as (o' & Hrun' & Hin); [right; eauto|lia| |congruence].
    rewrite Hactions, !elem_of_cons. tauto.
Qed.

End ForceRefreshSessionFurther.

(** ** The retry strategy given its configuration *)

(** The subscriptions [timeoutRetryStrategy] allows from the [i]-th on,
    when it is given the configuration. *)
Lemma timeoutRetryStrategy_loop {A} (config : OpenIdConfiguration)
    (handler : JsError -> N -> Rx.Obs N) (source : nat -> Rx.Obs A) :
  timeoutRetryStrategy (Some config) = inr handler ->
  forall n i fuel,
    (i + n = 3)%nat -> (n < fuel)%nat ->
    exists o,
      Rx.retryLoop handler source fuel i = Some o /\
      forall t e,
        Rx.settle o = Rx.At t (Rx.Error e) ->
        exists k t' cause,
          (i <= k <= 3)%nat /\
          Rx.settle (source k) = Rx.At t' (Rx.Error cause) /\
          e = ErrorOf cause /\
          (isTimeoutError cause = false \/ k = 3%nat).
Proof.
  intros Hhandler.
  destruct (timeoutRetryStrategy_given_config config) as (handler' & Hsame & Hcases).
  rewrite Hhandler in Hsame. injection Hsame as <-.
  induction n as [|n IH]; intros i fuel Hi Hfuel;
    (destruct fuel as [|fuel]; [lia|]); cbn [Rx.retryLoop].
  - destruct (Rx.settle (source i)) as [t [a|e|]|] eqn:Hsource;
      try (eexists; split; [reflexivity|]; intros u e'; rewrite Hsource; discriminate).
    rewrite Hcases.
    replace (N.of_nat i <? MAX_RETRY_ATTEMPTS) with false; last first.
    { symmetry. apply N.ltb_ge. unfold MAX_RETRY_ATTEMPTS. lia. }
    rewrite andb_false_r. simpl.
    eexists. split; [reflexivity|]. simpl.
    intros u e' [= _ <-]. exists i, t, e.
    split; [lia|]. split; [done|]. split; [done|]. right. lia.
  - destruct (Rx.settle (source i)) as [t [a|e|]|] eqn:Hsource;
      try (eexists; split; [reflexivity|]; intros u e'; rewrite Hsource; discriminate).
    rewrite Hcases.
    replace (N.of_nat i <? MAX_RETRY_ATTEMPTS) with true; last first.
    { symmetry. apply N.ltb_lt. unfold MAX_RETRY_ATTEMPTS. lia. }
    rewrite andb_true_r.
    destruct (isTimeoutError e) eqn:He; simpl.
    + destruct (IH (S i) fuel) as (rest & -> & Herror); [lia..|].
      eexists. split; [reflexivity|]. simpl.
      intros u e' Hsettle. destruct (Rx.settle rest) as [v m|]; [|done].
      injection Hsettle as _ ->.
      destruct (Herror v e' eq_refl) as (k & t' & cause & Hk & Hrest).
      exists k, t', cause. split; [lia|done].
    + eexists. split; [reflexivity|]. simpl.
      intros u e' [= _ <-]. exists i, t, e.
      split; [lia|]. split; [done|]. split; [done|]. by left.
Qed.

(** More subscriptions than a retry needs change nothing. *)
Lemma retryLoop_more_fuel {A B} (handler : JsError -> N -> Rx.Obs B)
    (source : nat -> Rx.Obs A) (fuel : nat) :
  forall i o more,
    Rx.retryLoop handler source fuel i = Some o ->
    Rx.retryLoop handler source (fuel + more) i = Some o.
Proof.
  induction fuel as [|fuel IH]; intros i o more Hrun; [discriminate|].
  change (S fuel + more)%nat with (S (fuel + more)).
  cbn [Rx.retryLoop] in Hrun |- *.
  destruct (Rx.settle (source i)) as [t [a|e|]|]; try done.
  destruct (Rx.settle (handler e (N.of_nat i))) as [d [v|e'|]|]; try done.
  destruct (Rx.retryLoop handler source fuel (S i)) as [rest|] eqn:Hrest;
    [|discriminate].
  by rewrite (IH _ _ more Hrest).
Qed.

(** X10.  Given the configuration, [timeoutRetryStrategy] never lets
    [retryWhen] subscribe more than four times: four subscriptions give
    the outcome, whatever the source does, and allowing more changes
    nothing.  An error it lets through is [new Error(cause)], where
    [cause] is the error of one of these four subscriptions, either not a
    timeout or the fourth one. *)
Theorem timeoutRetryStrategy_bounded {A} (config : OpenIdConfiguration)
    (source : nat -> Rx.Obs A) :
  exists o,
    (forall fuel, (4 <= fuel)%nat ->
       Rx.retryWhen (timeoutRetryStrategy (Some config)) source fuel = Some o) /\
    forall t e,
      Rx.settle o = Rx.At t (Rx.Error e) ->
      exists k t' cause,
        (k <= 3)%nat /\
        Rx.settle (source k) = Rx.At t' (Rx.Error cause) /\
        e = ErrorOf cause /\
        (isTimeoutError cause = false \/ k = 3%nat).
Proof.
  destruct (timeoutRetryStrategy_given_config config) as (handler & Hhandler & _).
  destruct (timeoutRetryStrategy_loop config handler source Hhandler 3 0 4)
    as (o & Hrun & Herror); [lia..|].
  exists o. split.
  - intros fuel Hfuel. unfold Rx.retryWhen. rewrite Hhandler.
    replace fuel with (4 + (fuel - 4))%nat by lia.
    by apply retryLoop_more_fuel.
  - intros t e Hsettle.
    destruct (Herror t e Hsettle) as (k & t' & cause & Hk & Hrest).
    exists k, t', cause. split; [lia|done].
Qed.

(** ** Waiting without a bound, returning without a wait *)

Section Unbounded.

Variable createBodyForCodeFlowCodeRequest :
  option string -> OpenIdConfiguration -> option Params -> string.
Variable isCurrentFlowCodeFlowWithRefreshTokens : OpenIdConfiguration -> bool.

(** X12.  The exchange has no timeout of its own: with the state check
    passed and a token endpoint cached, when a POST, the first or one
    that follows POSTs lost to connectivity, never settles,
    [codeFlowCodeRequest] never settles either, and that POST is its
    last call. *)
Theorem codeFlowCodeRequest_waits_for_post (callbackContext : CallbackContext)
    (config : OpenIdConfiguration) (world : CodeRequestWorld)
    (n fuel : nat) :
  state callbackContext = authStateControl world ->
  truthy (authWellKnownEndPoints world ≫= tokenEndpoint) = true ->
  (forall k, (k < n)%nat -> connectivityLost (post world k)) ->
  post world n = Rx.Never ->
  (n < fuel)%nat ->
  exists o,
    codeFlowCodeRequest createBodyForCodeFlowCodeRequest
      callbackContext config world fuel = Some o /\
    Rx.settle o = Rx.Never /\
    last (Rx.calls o) =
      Some (HttpPost (default "" (authWellKnownEndPoints world ≫= tokenEndpoint))
              (createBodyForCodeFlowCodeRequest
                 (code callbackContext) config (customParamsCodeRequest config))
              (configId config)
              [("Content-Type", "application/x-www-form-urlencoded")]).
Proof.
  intros Hstate Hendpoint Hlost Hnever Hfuel.
  rewrite codeFlowCodeRequest_cases. cbv zeta.
  rewrite bool_decide_eq_true_2 by done. rewrite Hendpoint. simpl.
  destruct (Nat.le_exists_sub (S n) fuel) as (m & -> & _); [lia|].
  replace (m + S n)%nat with (n + S m)%nat by lia.
  assert (Hprefix := retryLoop_connectivity callbackContext config
    (HttpPost (default "" (authWellKnownEndPoints world ≫= tokenEndpoint))
       (createBodyForCodeFlowCodeRequest
          (code callbackContext) config (customParamsCodeRequest config))
       (configId config)
       [("Content-Type", "application/x-www-form-urlencoded")])
    (post world) n 0 (S m)).
  cbv zeta in Hprefix. rewrite Hprefix by done. clear Hprefix.
  change (0 + n)%nat with n.
  cbn [Rx.retryLoop].
  assert (Hattempt : forall request,
    exchange callbackContext request (post world) n =
    Rx.mkObs [(0, request)] Rx.Never).
  { intros request. unfold exchange, Rx.switchMap. simpl. by rewrite Hnever. }
  rewrite Hattempt. simpl.
  eexists. split; [reflexivity|]. split; [done|].
  unfold Rx.calls. simpl.
  rewrite List.map_app. simpl.
  rewrite !app_comm_cons.
  apply last_snoc.
Qed.

(** X13.  On the refresh-token path a call made while a renewal is
    running, or without a well-known URL, does not wait: it makes no call
    but its log lines, leaves the flag store as it is, and emits at once
    the response made of the stored tokens, or [null] when they are not
    valid. *)
Theorem forceRefreshSession_refresh_tokens_no_wait (config : OpenIdConfiguration)
    (extraCustomParams : option Params) (world : RefreshWorld) (fuel : nat) :
  isCurrentFlowCodeFlowWithRefreshTokens config = true ->
  isSilentRenewRunning config (silentRenewRunning world) = true \/
  truthy (authWellknownEndpointUrl config) = false ->
  exists o,
    forceRefreshSession isCurrentFlowCodeFlowWithRefreshTokens
      config extraCustomParams world fuel = Some o /\
    Rx.settle o =
      Rx.At 0
        (Rx.Next
           (if areAuthStorageTokensValid (stores world) then
              Some {|
                idToken := getIdToken (stores world);
                accessToken := getAccessToken (stores world);
                userData := getUserDataFromStore (stores world);
                isAuthenticated := true;
                loginConfigId := configId config;
              |}
            else None)) /\
    Forall (fun a => exists level message, a = Log level (configId config) message)
      (Rx.calls o) /\
    Rx.flagsAfter o (silentRenewRunning world) = silentRenewRunning world.
Proof.
  intros Hflow Hclosed.
  rewrite (forceRefreshSession_refresh _ _ _ _ _ Hflow).
  eexists. split; [reflexivity|].
  rewrite RxFacts.settle_doing, RxFacts.settle_map.
  rewrite RxFacts.calls_doing, RxFacts.calls_map.
  rewrite (startRefreshSession_closed _ _ _ _ _ Hclosed).
  change (Rx.calls (Rx.of_ RenewNull)) with (@nil Action). rewrite app_nil_r.
  assert (Hlogs : Forall
    (fun a => exists level message, a = Log level (configId config) message)
    (eager (startRefreshSession isCurrentFlowCodeFlowWithRefreshTokens config
              (Some (spread (customParamsRefreshTokenRequest config) extraCustomParams))
              (silentRenewRunning world)))).
  { apply Forall_forall. intros a. apply startRefreshSession_eager. }
  split; [|split; [exact Hlogs|]].
  - simpl. unfold storedLoginResponse.
    by destruct (areAuthStorageTokensValid (stores world)).
  - unfold Rx.flagsAfter.
    rewrite RxFacts.calls_doing, RxFacts.calls_map.
    change (Rx.calls (Rx.of_ RenewNull)) with (@nil Action). rewrite app_nil_r.
    apply foldl_no_flag_write.
    eapply Forall_impl; [exact Hlogs|]. by intros a (level & message & ->).
Qed.

End Unbounded.

(** ** The further properties on the sample inputs *)

Lemma authenticatedImplicitFlowCallback_success_witness :
  Rx.settle
    (authenticatedImplicitFlowCallback sampleConfig [sampleConfig] None
       succeedingImplicitWorld)
  = Rx.At 40 (Rx.Next sampleLoginContext) /\
  Rx.actions
    (authenticatedImplicitFlowCallback sampleConfig [sampleConfig] None
       succeedingImplicitWorld)
  = [(0, ProcessImplicitFlowCallback "a" None); (40, NavigateByUrl "/home")].
Proof.
  destruct (authenticatedImplicitFlowCallback_success
              sampleConfig [sampleConfig] None succeedingImplicitWorld
              40 sampleLoginContext eq_refl)
    as (Hsettle & Hactions & _).
  split; [exact Hsettle|exact Hactions].
Defined.

Lemma authenticatedImplicitFlowCallback_event_mode_witness :
  exists added,
    Rx.actions
      (authenticatedImplicitFlowCallback sampleEventConfig [sampleEventConfig] None
         sampleImplicitWorld)
    = (0, ProcessImplicitFlowCallback "a" None) :: [] ++ added /\
    forall t route, (t, NavigateByUrl route) ∉ added.
Proof.
  destruct (authenticatedImplicitFlowCallback_event_mode
              sampleEventConfig [sampleEventConfig] None sampleImplicitWorld)
    as (added & Hactions & Hquiet & _).
  exists added. split; [exact Hactions|exact (Hquiet eq_refl)].
Defined.

Lemma codeFlowCodeRequest_surfaced_errors_witness :
  exists k t' cause,
    post rejectingCodeWorld k = Rx.At t' (Rx.Error cause) /\
    isConnectivityLoss cause = false.
Proof.
  edestruct (codeFlowCodeRequest_surfaced_errors
               sampleBody sampleContext sampleConfig rejectingCodeWorld 2)
    as [[Hmessage _]|[[Hmessage _]|[_ Hcause]]].
  - vm_compute. reflexivity.
  - reflexivity.
  - discriminate Hmessage.
  - discriminate Hmessage.
  - exact Hcause.
Defined.

Lemma codeFlowCodeRequest_emitted_context_witness :
  state sampleContext = authStateControl sampleCodeWorld /\
  exists k t' response result,
    post sampleCodeWorld k = Rx.At t' (Rx.Next response) /\
    authResult (withAuthResult sampleContext sampleAnswer) = Some result /\
    member "state" result = Some "st4te" /\
    member "session_state" result = Some "s3ssion".
Proof.
  edestruct (codeFlowCodeRequest_emitted_context
               sampleBody sampleContext sampleConfig sampleCodeWorld 2)
    with (t := 3130) (emitted := withAuthResult sampleContext sampleAnswer)
    as (Hstate & _ & k & t' & response & result & Hpost & Hresult & Hst & Hss & _).
  - vm_compute. reflexivity.
  - reflexivity.
  - split; [exact Hstate|].
    exists k, t', response, result.
    split; [exact Hpost|]. split; [exact Hresult|]. split; [exact Hst|exact Hss].
Defined.

Lemma codeFlowCodeRequest_calls_witness :
  exists o,
    codeFlowCodeRequest sampleBody sampleContext sampleConfig sampleCodeWorld 2
      = Some o /\
    Rx.flagsAfter o ∅ = ∅.
Proof.
  edestruct (codeFlowCodeRequest_calls
               sampleBody sampleContext sampleConfig sampleCodeWorld 2)
    as [_ Hflags].
  - reflexivity.
  - eexists. split; [reflexivity|]. apply Hflags.
Defined.

Lemma codeFlow_posts_only_for_stored_state_witness :
  truthy (sampleUrlParameter sampleReturnUrl "state") = true /\
  truthy (sampleUrlParameter sampleReturnUrl "code") = true /\
  authStateControl sampleCodeWorld = sampleUrlParameter sampleReturnUrl "state".
Proof.
  edestruct (codeFlow_posts_only_for_stored_state
               sampleUrlParameter sampleBody sampleReturnUrl sampleConfig
               sampleCodeWorld 2)
    as (Hstate & Hcode & Hstored & _).
  - reflexivity.
  - vm_compute. reflexivity.
  - eexists. split.
    + apply list_elem_of_In. do 2 right. left. reflexivity.
    + reflexivity.
  - split; [exact Hstate|]. split; [exact Hcode|exact Hstored].
Defined.

Lemma userForceRefreshSession_persists_witness :
  exists o' o,
    userForceRefreshSession sampleFlowHelper sampleRefreshConfig sampleExtraParams
      renewingWorld 1 = Some o' /\
    forceRefreshSession sampleFlowHelper sampleRefreshConfig sampleExtraParams
      renewingWorld 1 = Some o /\
    Rx.settle o' = Rx.settle o /\
    head (Rx.calls o') =
      Some (StorageWrite "storageCustomParamsRefresh"
              {[ "scope" := PString "caller"; "prompt" := PString "none" ]} "a").
Proof.
  eexists.
  edestruct (userForceRefreshSession_persists
               sampleFlowHelper sampleRefreshConfig sampleExtraParams renewingWorld 1)
    as (o & Hrun & Hcalls & Hsettle & _); [reflexivity|].
  exists o. split; [reflexivity|]. split; [exact Hrun|]. split; [exact Hsettle|].
  rewrite Hcalls. reflexivity.
Defined.

Lemma forceRefreshSession_other_configurations_witness :
  exists o,
    forceRefreshSession sampleFlowHelper sampleConfig None busyWorld 1 = Some o /\
    "b" ∈ Rx.flagsAfter o (silentRenewRunning busyWorld).
Proof.
  eexists. split; [reflexivity|].
  apply (forceRefreshSession_other_configurations
           sampleFlowHelper sampleConfig None busyWorld 1 _ "b" eq_refl).
  - discriminate.
  - vm_compute. reflexivity.
Defined.

Lemma forceRefreshSession_iframe_response_witness :
  exists o,
    forceRefreshSession sampleFlowHelper sampleConfig None emptySignalWorld 1
      = Some o /\
    Rx.settle o =
      Rx.At 300 (Rx.Next (Some {|
        idToken := None;
        accessToken := None;
        userData := Some {[ "sub" := Some "alice" ]};
        isAuthenticated := true;
        loginConfigId := "a";
      |})).
Proof.
  destruct (forceRefreshSession_iframe_response
              sampleFlowHelper sampleConfig None emptySignalWorld 1
              30 300 (RenewBoolean true) None eq_refl eq_refl eq_refl eq_refl)
    as (o & Hrun & Hsettle & _).
  exists o. split; [exact Hrun|exact Hsettle].
Defined.

Lemma timeoutRetryStrategy_bounded_witness :
  exists o,
    Rx.retryWhen (timeoutRetryStrategy (Some sampleConfig))
      (fun k =>
         renewalUnderTimeout
           (startRefreshSession sampleFlowHelper sampleConfig None ∅)
           5000 (attempt stalledWorld k))
      7 = Some o.
Proof.
  destruct (timeoutRetryStrategy_bounded sampleConfig
              (fun k =>
                 renewalUnderTimeout
                   (startRefreshSession sampleFlowHelper sampleConfig None ∅)
                   5000 (attempt stalledWorld k)))
    as (o & Hfuel & _).
  exists o. apply Hfuel. lia.
Defined.

Lemma forceRefreshSession_success_keeps_flag_witness :
  exists o t response,
    forceRefreshSession sampleFlowHelper sampleConfig None renewingWorld 1 = Some o /\
    Rx.settle o = Rx.At t (Rx.Next response) /\
    10 + 20 <= t /\
    isSilentRenewRunning sampleConfig
      (Rx.flagsAfter o (silentRenewRunning renewingWorld)) = true.
Proof.
  apply (forceRefreshSession_success_keeps_flag
           sampleFlowHelper sampleConfig None renewingWorld 1
           10 20 sampleMetadata (RenewBoolean true));
    try reflexivity.
  intros _. exists 300, (Some sampleContext). split; reflexivity.
Defined.

Lemma codeFlowCodeRequest_waits_for_post_witness :
  exists o,
    codeFlowCodeRequest sampleBody sampleContext sampleConfig hangingCodeWorld 2
      = Some o /\
    Rx.settle o = Rx.Never.
Proof.
  destruct (codeFlowCodeRequest_waits_for_post
              sampleBody sampleContext sampleConfig hangingCodeWorld 1 2
              eq_refl eq_refl)
    as (o & Hrun & Hsettle & _).
  - intros k Hk. destruct k; [|lia]. eexists _, _. split; reflexivity.
  - reflexivity.
  - lia.
  - exists o. split; [exact Hrun|exact Hsettle].
Defined.

Lemma forceRefreshSession_refresh_tokens_no_wait_witness :
  exists o,
    forceRefreshSession sampleFlowHelper sampleRefreshConfig None runningWorld 1
      = Some o /\
    Rx.settle o =
      Rx.At 0 (Rx.Next (Some {|
        idToken := Some "stored-id-token";
        accessToken := Some "stored-access-token";
        userData := Some {[ "sub" := Some "alice" ]};
        isAuthenticated := true;
        loginConfigId := "a";
      |})).
Proof.
  destruct (forceRefreshSession_refresh_tokens_no_wait
              sampleFlowHelper sampleRefreshConfig None runningWorld 1 eq_refl)
    as (o & Hrun & Hsettle & _).
  - left. vm_compute. reflexivity.
  - exists o. split; [exact Hrun|exact Hsettle].
Defined.
